(** * A YouTube-URL video player: resolver, control listener, orchestrator

    Shallow embedding of [videoplayerfromYTurl.py].  The script is glue
    around three collaborators (yt-dlp, python-vlc, keyboard); their
    answers are inputs of the model, and everything the script itself
    decides (which field of the extraction result is returned, which
    command a typed line issues, when the wait loop ends, which exit
    status results) is computed by the definitions below. *)

From Stdlib Require Import ZArith NArith Ascii String List Bool Lia.
From stdpp Require Import gmap strings list fin_maps.

Local Open Scope Z_scope.

(** ** Python values *)

(** A Python [str] is its sequence of code points.  [strip] and [lower]
    act on code points, so a byte string would not do. *)
Abbreviation pystr := (list N).

(** A string literal of the source, all of which are ASCII. *)
Definition lit (s : string) : pystr :=
  (λ a, N_of_ascii a) <$> list_ascii_of_string s.

(** The values an extraction result is built from. *)
#[warnings="-register-all"]
Inductive pyval :=
| VNone
| VBool (b : bool)
| VInt (z : Z)
| VStr (s : pystr)
| VList (l : list pyval)
| VDict (d : gmap pystr pyval).

(** Truth value of an object, as [if not x] tests it. *)
Definition truthy (v : pyval) : bool :=
  match v with
  | VNone => false
  | VBool b => b
  | VInt z => negb (z =? 0)
  | VStr s => negb (bool_decide (s = []))
  | VList l => negb (bool_decide (length l = 0%nat))
  | VDict d => negb (bool_decide (size d = 0%nat))
  end.

(** [v != s] for a string literal [s]: only an equal [str] compares equal. *)
Definition py_ne_str (v : pyval) (s : pystr) : bool :=
  match v with
  | VStr t => negb (bool_decide (t = s))
  | _ => true
  end.

(** *** [str.strip] and [str.lower] *)

(** The code points [str.strip()] removes: CPython's whitespace table. *)
Definition isspace (c : N) : bool :=
  ((9 <=? c) && (c <=? 13) || (28 <=? c) && (c <=? 32)
   || (c =? 133) || (c =? 160) || (c =? 5760)
   || (8192 <=? c) && (c <=? 8202)
   || (c =? 8232) || (c =? 8233) || (c =? 8239) || (c =? 8287)
   || (c =? 12288))%N.

Fixpoint lstrip (s : pystr) : pystr :=
  match s with
  | [] => []
  | c :: s' => if isspace c then lstrip s' else s
  end.

Definition rstrip (s : pystr) : pystr := reverse (lstrip (reverse s)).

Definition strip (s : pystr) : pystr := rstrip (lstrip s).

Definition is_ascii (c : N) : bool := (c <? 128)%N.

Definition ascii_lower (c : N) : N :=
  if ((65 <=? c) && (c <=? 90))%N then (c + 32)%N else c.

(** [str.lower()].  On an ASCII string it maps A-Z to a-z and nothing
    else; for a string with a code point beyond ASCII the result comes
    from Unicode's case tables, which are an input here. *)
Definition lower (unicode_lower : pystr → pystr) (s : pystr) : pystr :=
  if forallb is_ascii s then ascii_lower <$> s else unicode_lower s.

(** ** The player engine's states *)

(** Modelled from the spec: [vlc.State] is python-vlc's enumeration and is
    not in the source, which names two of its members, [Ended] and [Error].
    The spec's data model gives the lifecycle states as idle, playing,
    paused, ended, error. *)
Inductive State := Idle | Playing | Paused | Ended | Error.

#[global] Instance State_eq_dec : EqDecision State.
Proof. solve_decision. Defined.

(** ** Effects: exceptions, observable events, runs *)

(** Exceptions deriving from [Exception] that the script can meet. *)
Inductive error :=
| AttributeError   (* [.get] on an object that has none *)
| TypeError        (* iterating an object that is not iterable *)
| LibraryError (msg : pystr).   (* raised by a collaborator *)

(** [SystemExit] and [KeyboardInterrupt] derive from [BaseException]
    only, so [except Exception] lets them through. *)
Inductive exn :=
| SystemExit (code : Z)
| KeyboardInterrupt
| Err (e : error).

Inductive event :=
| EvInput (prompt : string)
| EvPrint (msg : string)
| EvPrintError (msg : string) (e : error)
| EvPrintState (msg : string) (s : State)
| EvExtractInfo (url : pystr)
| EvGet (obj : pyval) (key : pystr)
| EvMediaPlayer (mrl : pyval)
| EvPlay
| EvPause
| EvStop
| EvGetState
| EvSleep (ms : N)
| EvStartListener
| EvIsPressed (key : string).

Inductive outcome (A : Type) :=
| Done (a : A)        (* ran to its end *)
| Raised (x : exn)    (* left by an exception nobody caught so far *)
| Blocked.            (* the recorded inputs ran out: still looping or waiting *)
Arguments Done {A} a.
Arguments Raised {A} x.
Arguments Blocked {A}.

(** A run: what was observable, in order, and how it went on. *)
Definition Run (A : Type) : Type := list event * outcome A.

Definition ret {A} (a : A) : Run A := ([], Done a).

Definition bind {A B} (m : Run A) (k : A → Run B) : Run B :=
  match m with
  | (t, Done a) => let '(t', o) := k a in (t ++ t', o)
  | (t, Raised x) => (t, Raised x)
  | (t, Blocked) => (t, Blocked)
  end.

Declare Scope run_scope.
Delimit Scope run_scope with run.
Notation "x <- m ;; k" := (bind m (λ x, k))
  (at level 100, m at next level, right associativity) : run_scope.
Notation "m ;; k" := (bind m (λ _, k))
  (at level 100, right associativity) : run_scope.
Local Open Scope run_scope.

Definition emit (e : event) : Run unit := ([e], Done tt).
Definition raise {A} (x : exn) : Run A := ([], Raised x).
Definition blocked {A} : Run A := ([], Blocked).

Definition print (msg : string) : Run unit := emit (EvPrint msg).
Definition sleep (ms : N) : Run unit := emit (EvSleep ms).
Definition sys_exit {A} (code : Z) : Run A := raise (SystemExit code).

(** [try: body  except Exception as e: handler e] *)
Definition try_except_Exception {A} (body : Run A) (handler : error → Run A)
  : Run A :=
  match body with
  | (t, Raised (Err e)) => let '(t', o) := handler e in (t ++ t', o)
  | r => r
  end.

(** [try: body  except KeyboardInterrupt: handler] *)
Definition try_except_KeyboardInterrupt {A} (body : Run A) (handler : Run A)
  : Run A :=
  match body with
  | (t, Raised KeyboardInterrupt) => let '(t', o) := handler in (t ++ t', o)
  | r => r
  end.

(** How the process ends when [main] is its whole program. *)
Inductive process_end :=
| ExitStatus (code : Z)
| KilledByInterrupt
| StillRunning.

Definition process_end_of {A} (o : outcome A) : process_end :=
  match o with
  | Done _ => ExitStatus 0
  | Raised (SystemExit code) => ExitStatus code
  | Raised KeyboardInterrupt => KilledByInterrupt
  | Raised (Err _) => ExitStatus 1
  | Blocked => StillRunning
  end.

(** ** The resolver: [get_video_stream_url] *)

(** What one call of yt-dlp's [extract_info] does. *)
Inductive extraction :=
| Returns (info : pyval)
| Raises (e : error).

(** [obj.get(key)] and [obj.get(key, default)]: a method of dicts only. *)
Definition py_get (obj : pyval) (key : pystr) (dflt : pyval) : Run pyval :=
  emit (EvGet obj key) ;;
  match obj with
  | VDict d => ret (default dflt (d !! key))
  | _ => raise (Err AttributeError)
  end.

(** The items a [for] loop draws from an object.  A [gmap] does not
    record the insertion order of a dict's keys; the scan below fails at
    the first key, whichever it is. *)
Definition py_iter (v : pyval) : Run (list pyval) :=
  match v with
  | VList l => ret l
  | VStr s => ret ((λ c, VStr [c]) <$> s)
  | VDict d => ret (VStr <$> (map_to_list d).*1)
  | VNone | VBool _ | VInt _ => raise (Err TypeError)
  end.

Section Resolver.

(** The extraction library, queried with [ydl_opts]
    (quiet off, format best, simulate on). *)
Variable ydl : pystr → extraction.

Definition extract_info (yt_url : pystr) : Run pyval :=
  emit (EvExtractInfo yt_url) ;;
  match ydl yt_url with
  | Returns info => ret info
  | Raises e => raise (Err e)
  end.

(** The fallback loop: [for fmt in ...: if fmt.get('vcodec') != 'none':
    stream_url = fmt.get('url'); break]. *)
Fixpoint first_video_format (fmts : list pyval) (stream_url : pyval)
  : Run pyval :=
  match fmts with
  | [] => ret stream_url
  | fmt :: fmts' =>
      vcodec <- py_get fmt (lit "vcodec") VNone ;;
      if py_ne_str vcodec (lit "none")
      then py_get fmt (lit "url") VNone
      else first_video_format fmts' stream_url
  end.

Definition get_video_stream_url (yt_url : pystr) : Run pyval :=
  try_except_Exception
    (info <- extract_info yt_url ;;
     stream_url <- py_get info (lit "url") VNone ;;
     if negb (truthy stream_url)
     then (formats <- py_get info (lit "formats") (VList []) ;;
           fmts <- py_iter formats ;;
           first_video_format fmts stream_url)
     else ret stream_url)
    (λ e, emit (EvPrintError "Error extracting video info:" e) ;;
          ret VNone).

End Resolver.

(** ** The control listener: [listen_for_controls] *)

Section Listener.

(** Unicode's lower-casing of strings that are not ASCII (see [lower]). *)
Variable unicode_lower : pystr → pystr.

(** Hook mode.  One pair per pass of the loop: what
    [keyboard.is_pressed('q')] and [keyboard.is_pressed('p')] answer
    (the second is asked only when the first is false). *)
Fixpoint hook_loop (polls : list (bool * bool)) : Run unit :=
  match polls with
  | [] => blocked
  | (q, p) :: polls' =>
      emit (EvIsPressed "q") ;;
      if q
      then (print "Detected 'q' key press. Stopping playback..." ;;
            emit EvStop)
      else (emit (EvIsPressed "p") ;;
            (if p
             then (print "Detected 'p' key press. Toggling pause/resume..." ;;
                   emit EvPause ;;
                   sleep 400)
             else ret tt) ;;
            sleep 100 ;;
            hook_loop polls')
  end.

(** Line-input mode.  The list holds the lines typed so far; when it
    is used up the listener sits in [input("Command: ")]. *)
Fixpoint line_loop (lines : list pystr) : Run unit :=
  match lines with
  | [] => emit (EvInput "Command: ") ;; blocked
  | line :: lines' =>
      emit (EvInput "Command: ") ;;
      let command := lower unicode_lower (strip line) in
      if bool_decide (command = lit "q")
      then (print "Stop command received from input. Stopping playback..." ;;
            emit EvStop)
      else if bool_decide (command = lit "p")
      then (print "Pause/resume command received from input. Toggling pause/resume..." ;;
            emit EvPause ;;
            line_loop lines')
      else (print "Invalid command. Please enter 'q' or 'p'." ;;
            line_loop lines')
  end.

Definition listen_for_controls (use_keyboard : bool)
    (polls : list (bool * bool)) (lines : list pystr) : Run unit :=
  if use_keyboard
  then (print "Press 'q' to stop playback or 'p' to toggle pause/resume." ;;
        hook_loop polls)
  else (print "Enter command: 'q' to quit or 'p' to toggle pause/resume." ;;
        line_loop lines).

End Listener.

(** The commands a run issued to the player handle, in order. *)
Definition is_command (e : event) : bool :=
  match e with
  | EvPlay | EvPause | EvStop => true
  | _ => false
  end.

Definition commands (t : list event) : list event := List.filter is_command t.

(** ** The orchestrator: [main] *)

(** One pass of the wait loop as the main thread lives it: the engine
    reports a state, or [KeyboardInterrupt] is raised in that pass
    (inside [get_state] or the [sleep] before it). *)
Inductive wait_obs :=
| Reports (s : State)
| Interrupt.

(** Everything outside the script that one run of [main] meets. *)
Record world := {
  typed_url : pystr;                     (* the line typed at the URL prompt *)
  ydl_of : pystr → extraction;           (* the extraction library *)
  media_player : pyval → option error;   (* [vlc.MediaPlayer(mrl)]: raises, or not *)
  play_returns : Z;                      (* what [player.play()] returns *)
  initial_state : State;                 (* the state printed after the settling sleep *)
  wait_passes : list wait_obs            (* the passes of the wait loop, so far *)
}.

(** [while True: state = player.get_state(); if state in (Ended, Error):
    break; time.sleep(1)] *)
Fixpoint wait_loop (passes : list wait_obs) : Run unit :=
  match passes with
  | [] => blocked
  | Interrupt :: _ => raise KeyboardInterrupt
  | Reports state :: passes' =>
      emit EvGetState ;;
      if bool_decide (state ∈ [Ended; Error])
      then ret tt
      else (sleep 1000 ;; wait_loop passes')
  end.

Definition construct_player (w : world) (mrl : pyval) : Run unit :=
  emit (EvMediaPlayer mrl) ;;
  match media_player w mrl with
  | Some e => raise (Err e)
  | None => ret tt
  end.

(** The last part of [main]: settling sleep, state print, listener
    start, wait loop, completion message. *)
Definition wait_phase (w : world) : Run unit :=
  sleep 1000 ;;
  emit EvGetState ;;
  emit (EvPrintState "Initial VLC player state:" (initial_state w)) ;;
  emit EvStartListener ;;
  try_except_KeyboardInterrupt
    (wait_loop (wait_passes w))
    (print "Playback interrupted by user (KeyboardInterrupt).") ;;
  print "Video playback ended.".

(** The middle part of [main]: the player's construction and the play
    command, each fatal when it fails. *)
Definition start (w : world) (stream_url : pyval) : Run unit :=
  print "Starting video playback..." ;;
  try_except_Exception
    (construct_player w stream_url)
    (λ e, emit (EvPrintError "Error initializing VLC MediaPlayer:" e) ;;
          sys_exit 1) ;;
  emit EvPlay ;;
  if play_returns w =? -1
  then (print "VLC failed to start playback. Check your VLC installation." ;;
        sys_exit 1)
  else ret tt.

Definition main (w : world) : Run unit :=
  emit (EvInput "Enter YouTube URL: ") ;;
  let yt_url := strip (typed_url w) in
  (if negb (truthy (VStr yt_url))
   then (print "Invalid URL. Exiting." ;; sys_exit 1)
   else ret tt) ;;
  stream_url <- get_video_stream_url (ydl_of w) yt_url ;;
  (if negb (truthy stream_url)
   then (print "Could not retrieve a valid video stream URL from the provided link." ;;
         sys_exit 1)
   else ret tt) ;;
  start w stream_url ;;
  wait_phase w.

(** ** The vocabulary of the statements *)

(** The two halves of a run. *)
Definition trace {A} (r : Run A) : list event := r.1.
Definition result {A} (r : Run A) : outcome A := r.2.

(** An entry of the format list that is a dict whose ['vcodec'] is the
    string ['none']. *)
Definition codec_is_none (fmt : pyval) : bool :=
  match fmt with
  | VDict f => negb (py_ne_str (default VNone (f !! lit "vcodec")) (lit "none"))
  | _ => false
  end.

(** An entry that is a dict whose ['vcodec'], as [.get] reads it, differs
    from ['none']. *)
Definition carries_video (fmt : pyval) : bool :=
  match fmt with
  | VDict f => py_ne_str (default VNone (f !! lit "vcodec")) (lit "none")
  | _ => false
  end.

(** [info.get('url')] is falsy: absent, [None] or empty. *)
Definition no_top_level_url (d : gmap pystr pyval) : bool :=
  negb (truthy (default VNone (d !! lit "url"))).

(** A reported state that keeps the loop going. *)
Definition still_playing (s : State) : bool :=
  negb (bool_decide (s ∈ [Ended; Error])).

(** What [n] passes that go through to the [sleep] leave in the trace. *)
Definition polling (n : nat) : list event :=
  concat (replicate n [EvGetState; EvSleep 1000]).

(** The format list is empty or holds entries of codec ['none'] only. *)
Definition all_codecs_none (d : gmap pystr pyval) : bool :=
  match default (VList []) (d !! lit "formats") with
  | VList fmts => forallb codec_is_none fmts
  | _ => false
  end.

(** The cases of failure as the spec lists them: the library raises, or
    there is no top-level URL and the format list is empty or all
    ['none']. *)
Definition claimed_failure_case (x : extraction) : bool :=
  match x with
  | Raises _ => true
  | Returns (VDict d) => no_top_level_url d && all_codecs_none d
  | Returns _ => false
  end.

Definition is_dict (v : pyval) : bool :=
  match v with VDict _ => true | _ => false end.

(** [fmt.get('url')] of an entry. *)
Definition entry_url (fmt : pyval) : pyval :=
  match fmt with
  | VDict f => default VNone (f !! lit "url")
  | _ => VNone
  end.

(** The entry at which the fallback loop stops: the first that is not a
    dict of codec ['none']. *)
Definition scan_stop (fmts : list pyval) : option pyval :=
  List.find (λ fmt, negb (codec_is_none fmt)) fmts.

(** The cases in which resolution fails, that is, in which the value
    the resolver hands to [main] is falsy: the library raises; its
    result is not a dict; or the top-level URL is falsy and either
    ['formats'] is not a list, or the list holds nothing but entries of
    codec ['none'], or the entry the scan stops at is not a dict or has
    a falsy ['url']. *)
Definition resolution_fails (x : extraction) : bool :=
  match x with
  | Raises _ => true
  | Returns (VDict d) =>
      no_top_level_url d
      && match default (VList []) (d !! lit "formats") with
         | VList fmts =>
             match scan_stop fmts with
             | Some fmt => negb (truthy (entry_url fmt))
             | None => true
             end
         | _ => true
         end
  | Returns _ => true
  end.

(** The command a typed line stands for. *)
Definition command_of (unicode_lower : pystr → pystr) (line : pystr) : pystr :=
  lower unicode_lower (strip line).

(** The player commands a sequence of typed lines asks for: one pause
    per [p], nothing for other lines, and a stop at the first [q], which
    ends the sequence. *)
Fixpoint issued (unicode_lower : pystr → pystr) (lines : list pystr)
  : list event :=
  match lines with
  | [] => []
  | line :: lines' =>
      if bool_decide (command_of unicode_lower line = lit "q") then [EvStop]
      else if bool_decide (command_of unicode_lower line = lit "p")
      then EvPause :: issued unicode_lower lines'
      else issued unicode_lower lines'
  end.

(** Modelled from the spec: the effect of the engine's pause command on
    the lifecycle state.  [MediaPlayer.pause] belongs to python-vlc and
    is not in the source, whose comment on the call reads "pause()
    toggles pause state in VLC"; the spec (4.2) has "semantics are
    toggle, not set; calling it twice returns to the prior state". *)
Definition pause_toggle (s : State) : State :=
  match s with
  | Playing => Paused
  | Paused => Playing
  | Idle | Ended | Error => s
  end.

(** The state once the engine has obeyed the pause commands of a trace,
    nothing else acting on it meanwhile. *)
Fixpoint after_pauses (t : list event) (s : State) : State :=
  match t with
  | [] => s
  | EvPause :: t' => after_pauses t' (pause_toggle s)
  | _ :: t' => after_pauses t' s
  end.

(** ** Inputs used as examples *)

(** A format entry with its codec and, maybe, its URL. *)
Definition fmt_entry (vcodec : string) (url : option string) : pyval :=
  VDict (match url with
         | Some u => <[lit "url" := VStr (lit u)]> {[lit "vcodec" := VStr (lit vcodec)]}
         | None => {[lit "vcodec" := VStr (lit vcodec)]}
         end).

(** A result with a direct URL and a format list next to it. *)
Definition info_direct : gmap pystr pyval :=
  <[lit "url" := VStr (lit "https://cdn.example/direct")]>
    {[lit "formats" := VList [fmt_entry "vp9" (Some "https://cdn.example/vp9")]]}.

(** No direct URL; two audio-only entries, then two with video. *)
Definition info_fallback : gmap pystr pyval :=
  {[lit "formats" :=
      VList [fmt_entry "none" (Some "https://cdn.example/a1");
             fmt_entry "none" (Some "https://cdn.example/a2");
             fmt_entry "h264" (Some "https://cdn.example/v1");
             fmt_entry "vp9" (Some "https://cdn.example/v2")]]}.

(** No direct URL; the first entry with video has no ['url'], a later
    one has. *)
Definition info_first_video_without_url : gmap pystr pyval :=
  {[lit "formats" :=
      VList [fmt_entry "none" (Some "https://cdn.example/a1");
             fmt_entry "h264" None;
             fmt_entry "vp9" (Some "https://cdn.example/v2")]]}.

Definition watch_url : pystr := lit "https://youtu.be/abc".

(** The user types blanks and a tab. *)
Definition blank_world : world :=
  {| typed_url := lit "  	 ";
     ydl_of := λ _, Returns (VDict info_direct);
     media_player := λ _, None;
     play_returns := 0;
     initial_state := Playing;
     wait_passes := [Reports Playing; Reports Ended] |}.

Definition direct_url : pyval := VStr (lit "https://cdn.example/direct").

(** Worlds in which resolution succeeds with the direct URL. *)
Definition playing_world (ctor : option error) (play : Z)
    (passes : list wait_obs) : world :=
  {| typed_url := lit " https://youtu.be/abc ";
     ydl_of := λ _, Returns (VDict info_direct);
     media_player := λ _, ctor;
     play_returns := play;
     initial_state := Playing;
     wait_passes := passes |}.

(** A world in which the first entry with video has no URL. *)
Definition unresolved_world : world :=
  {| typed_url := lit "https://youtu.be/abc";
     ydl_of := λ _, Returns (VDict info_first_video_without_url);
     media_player := λ _, None;
     play_returns := 0;
     initial_state := Playing;
     wait_passes := [] |}.

(** ** The module level: imports and entry point *)

(** What an [import] statement under [try: ... except ImportError:]
    meets. *)
Inductive import_outcome :=
| Imported
| NotInstalled.   (* [ImportError] *)

(** The three third-party modules of the script. *)
Record modules := {
  vlc : import_outcome;
  yt_dlp : import_outcome;
  keyboard : import_outcome
}.

(** The statements before the function definitions; the value is the
    global [use_keyboard]. *)
Definition module_init (m : modules) : Run bool :=
  (match vlc m with
   | Imported => ret tt
   | NotInstalled =>
       print "The python-vlc module is not installed. Please install it with: pip install python-vlc" ;;
       sys_exit 1
   end) ;;
  (match yt_dlp m with
   | Imported => ret tt
   | NotInstalled =>
       print "The yt-dlp module is not installed. Please install it with: pip install yt-dlp" ;;
       sys_exit 1
   end) ;;
  match keyboard m with
  | Imported => ret true
  | NotInstalled =>
      print "The 'keyboard' module is not installed. For improved controls, install it with: pip install keyboard" ;;
      print "Falling back to manual input commands." ;;
      ret false
  end.

(** The script run as a program: the module level, then
    [if __name__ == "__main__": main()]. *)
Definition script (m : modules) (w : world) : Run unit :=
  module_init m ;;
  main w.

(** ** Measures on traces *)

Definition is_extract (e : event) : bool :=
  match e with EvExtractInfo _ => true | _ => false end.

Definition is_input (e : event) : bool :=
  match e with EvInput _ => true | _ => false end.

Definition is_key_query (e : event) : bool :=
  match e with EvIsPressed _ => true | _ => false end.

Definition is_player_event (e : event) : bool :=
  match e with
  | EvMediaPlayer _ | EvPlay | EvPause | EvStop | EvGetState
  | EvStartListener => true
  | _ => false
  end.

(** The events the resolver can leave. *)
Definition resolver_event (e : event) : bool :=
  match e with
  | EvExtractInfo _ | EvGet _ _ | EvPrintError _ _ => true
  | _ => false
  end.

(** The milliseconds a run spent in [time.sleep]. *)
Fixpoint slept (t : list event) : N :=
  match t with
  | [] => 0
  | EvSleep ms :: t' => ms + slept t'
  | _ :: t' => slept t'
  end.

(** A typed line is a stop, or a pause, command. *)
Definition is_q (unicode_lower : pystr → pystr) (line : pystr) : bool :=
  bool_decide (lower unicode_lower (strip line) = lit "q").

Definition is_p (unicode_lower : pystr → pystr) (line : pystr) : bool :=
  bool_decide (lower unicode_lower (strip line) = lit "p").

(** The passes, among some passes of the hook loop, that see [p] down. *)
Definition p_down (polls : list (bool * bool)) : nat :=
  length (List.filter snd polls).

(** An object a [for] loop cannot draw from. *)
Definition not_iterable (v : pyval) : bool :=
  match v with
  | VNone | VBool _ | VInt _ => true
  | _ => false
  end.

(** The events the resolver leaves after its call of the library. *)
Definition lookup_event (e : event) : bool :=
  match e with
  | EvGet _ _ | EvPrintError _ _ => true
  | _ => false
  end.

(** The events of the wait loop and of the messages around it. *)
Definition waiting_event (e : event) : bool :=
  match e with
  | EvGetState | EvSleep _ | EvPrint _ => true
  | _ => false
  end.


(** * Properties *)

(** ** Reasoning about runs *)

Lemma result_bind {A B} (m : Run A) (k : A → Run B) :
  result (bind m k) =
  match result m with
  | Done a => result (k a)
  | Raised x => Raised x
  | Blocked => Blocked
  end.
Proof.
  destruct m as [t [a| x |]]; cbn; try reflexivity.
  destruct (k a); reflexivity.
Qed.

Lemma trace_bind {A B} (m : Run A) (k : A → Run B) :
  trace (bind m k) =
  trace m ++ match result m with
             | Done a => trace (k a)
             | _ => []
             end.
Proof.
  destruct m as [t [a| x |]]; cbn; try (rewrite app_nil_r; reflexivity).
  destruct (k a); reflexivity.
Qed.

Lemma run_eta {A} (r : Run A) : r = (trace r, result r).
Proof. destruct r; reflexivity. Qed.

Lemma bind_done {A B} t (a : A) (k : A → Run B) :
  bind (t, Done a) k = (t ++ trace (k a), result (k a)).
Proof. cbn. destruct (k a); reflexivity. Qed.

Lemma result_try_except_Exception {A} (body : Run A) handler :
  result (try_except_Exception body handler) =
  match result body with
  | Raised (Err e) => result (handler e)
  | o => o
  end.
Proof.
  destruct body as [t [a| [c| |e] |]]; cbn; try reflexivity.
  destruct (handler e); reflexivity.
Qed.

Lemma trace_try_except_Exception {A} (body : Run A) handler :
  trace (try_except_Exception body handler) =
  trace body ++ match result body with
                | Raised (Err e) => trace (handler e)
                | _ => []
                end.
Proof.
  destruct body as [t [a| [c| |e] |]]; cbn; try (rewrite app_nil_r; reflexivity).
  destruct (handler e); reflexivity.
Qed.

Lemma py_get_dict d key dflt :
  py_get (VDict d) key dflt
  = ([EvGet (VDict d) key], Done (default dflt (d !! key))).
Proof. reflexivity. Qed.

Lemma result_py_get obj key dflt :
  result (py_get obj key dflt) =
  match obj with
  | VDict d => Done (default dflt (d !! key))
  | _ => Raised (Err AttributeError)
  end.
Proof. destruct obj; reflexivity. Qed.

(** ** The resolver *)

Section ResolverFacts.

Variable ydl : pystr → extraction.

Lemma first_video_format_skips nones fmts v :
  forallb codec_is_none nones = true →
  result (first_video_format (nones ++ fmts) v)
  = result (first_video_format fmts v).
Proof.
  induction nones as [|x nones IH]; intros Hn; [reflexivity|].
  cbn [forallb] in Hn. apply andb_true_iff in Hn as [Hx Hn].
  destruct x as [| | | | |f]; try discriminate.
  cbn [app first_video_format]. rewrite result_bind, result_py_get.
  cbn [codec_is_none] in Hx. apply negb_true_iff in Hx. rewrite Hx.
  auto.
Qed.

Lemma first_video_format_all_none fmts v :
  forallb codec_is_none fmts = true →
  result (first_video_format fmts v) = Done v.
Proof.
  intros H. rewrite <- (app_nil_r fmts).
  rewrite first_video_format_skips by assumption. reflexivity.
Qed.

Lemma first_video_format_selects f rest v :
  carries_video (VDict f) = true →
  result (first_video_format (VDict f :: rest) v)
  = Done (default VNone (f !! lit "url")).
Proof.
  cbn [carries_video first_video_format]. intros Hf.
  rewrite result_bind, result_py_get, Hf. apply result_py_get.
Qed.

(** The result of the resolver on a dict without a usable top-level
    URL, in terms of the fallback scan. *)
Lemma result_fallback yt_url d :
  ydl yt_url = Returns (VDict d) →
  no_top_level_url d = true →
  result (get_video_stream_url ydl yt_url) =
  match result (fmts <- py_iter (default (VList []) (d !! lit "formats")) ;;
                first_video_format fmts (default VNone (d !! lit "url"))) with
  | Raised (Err _) => Done VNone
  | o => o
  end.
Proof.
  intros Hy Hu. unfold get_video_stream_url, extract_info.
  rewrite Hy, result_try_except_Exception.
  rewrite !result_bind. cbn [emit result snd ret].
  rewrite result_bind, result_py_get. unfold no_top_level_url in Hu.
  rewrite Hu. rewrite result_bind, result_py_get.
  rewrite ?result_bind.
  destruct (result (py_iter _)) as [l|[c| |e]|]; reflexivity.
Qed.

(** The resolver always returns: it neither raises nor waits. *)
Lemma get_video_stream_url_returns yt_url :
  ∃ v, result (get_video_stream_url ydl yt_url) = Done v.
Proof.
  unfold get_video_stream_url. rewrite result_try_except_Exception.
  assert (H : ∀ fmts v, ∃ o, result (first_video_format fmts v) = o
            ∧ match o with Done _ | Raised (Err _) => True | _ => False end).
  { induction fmts as [|x fmts IH]; intros v; [eexists; split; [reflexivity|exact I]|].
    cbn [first_video_format]. rewrite result_bind, result_py_get.
    destruct x; try (eexists; split; [reflexivity|exact I]).
    destruct (py_ne_str _ _); [|apply IH].
    rewrite result_py_get. eexists; split; [reflexivity|exact I]. }
  unfold extract_info. rewrite !result_bind. cbn [emit result snd].
  destruct (ydl yt_url) as [info|e]; cbn [ret raise result snd]; [|eauto].
  rewrite result_bind, result_py_get.
  destruct info as [| | | | |d]; eauto.
  destruct (truthy _); cbn [negb ret result snd]; [eauto|].
  rewrite result_bind, result_py_get, result_bind.
  destruct (default (VList []) (d !! lit "formats")) as [| | |s|l|g];
    cbn [py_iter ret raise result snd]; eauto;
    match goal with |- context [first_video_format ?l ?v] =>
      destruct (H l v) as (o & -> & Ho) end;
    destruct o as [a|[c| |e]|]; try contradiction; eauto.
Qed.

(** The first thing the resolver does is to ask the library. *)
Lemma resolver_asks_library yt_url :
  ∃ t, trace (get_video_stream_url ydl yt_url) = EvExtractInfo yt_url :: t.
Proof.
  unfold get_video_stream_url.
  rewrite trace_try_except_Exception, trace_bind. unfold extract_info at 1.
  rewrite trace_bind. cbn [emit trace fst app]. eexists; reflexivity.
Qed.

End ResolverFacts.

(** *** The claims on the resolver *)

(** C3.  When the extraction result has a non-empty string under
    ['url'], the resolver returns exactly that string, and the one thing
    it reads from the result is that key: the format list is never
    asked for. *)
Theorem top_level_url_returned (ydl : pystr → extraction)
    (yt_url : pystr) (d : gmap pystr pyval) (u : pystr) :
  ydl yt_url = Returns (VDict d) →
  d !! lit "url" = Some (VStr u) →
  u ≠ [] →
  get_video_stream_url ydl yt_url
  = ([EvExtractInfo yt_url; EvGet (VDict d) (lit "url")], Done (VStr u)).
Proof.
  intros Hy Hu Hne. unfold get_video_stream_url, extract_info.
  rewrite Hy. cbn [emit ret bind app].
  rewrite py_get_dict, Hu. cbn [default from_option id bind truthy].
  destruct u as [|c u]; [contradiction|]. reflexivity.
Qed.

Lemma top_level_url_returned_witness :
  get_video_stream_url (λ _, Returns (VDict info_direct)) watch_url
  = ([EvExtractInfo watch_url; EvGet (VDict info_direct) (lit "url")],
     Done (VStr (lit "https://cdn.example/direct"))).
Proof.
  apply (top_level_url_returned _ watch_url info_direct
           (lit "https://cdn.example/direct"));
    [reflexivity | reflexivity | discriminate].
Defined.

(** C4.  With no top-level URL, and a format list that starts with
    entries of codec ['none'] followed by an entry whose codec is not
    ['none'], the resolver returns what that entry holds under ['url'],
    whatever comes after it. *)
Theorem fallback_returns_first_video_format (ydl : pystr → extraction)
    (yt_url : pystr) (d : gmap pystr pyval)
    (nones : list pyval) (f : gmap pystr pyval) (rest : list pyval) :
  ydl yt_url = Returns (VDict d) →
  no_top_level_url d = true →
  d !! lit "formats" = Some (VList (nones ++ VDict f :: rest)) →
  forallb codec_is_none nones = true →
  carries_video (VDict f) = true →
  result (get_video_stream_url ydl yt_url)
  = Done (default VNone (f !! lit "url")).
Proof.
  intros Hy Hu Hf Hn Hv.
  rewrite (result_fallback ydl yt_url d Hy Hu), Hf.
  cbn [default from_option id]. rewrite result_bind.
  cbn [py_iter ret result snd].
  rewrite (first_video_format_skips nones _ _ Hn).
  rewrite (first_video_format_selects f rest _ Hv). reflexivity.
Qed.

Lemma fallback_returns_first_video_format_witness :
  result (get_video_stream_url (λ _, Returns (VDict info_fallback)) watch_url)
  = Done (VStr (lit "https://cdn.example/v1")).
Proof.
  exact (fallback_returns_first_video_format
           (λ _, Returns (VDict info_fallback)) watch_url info_fallback
           [fmt_entry "none" (Some "https://cdn.example/a1");
            fmt_entry "none" (Some "https://cdn.example/a2")]
           (<[lit "url" := VStr (lit "https://cdn.example/v1")]>
              {[lit "vcodec" := VStr (lit "h264")]})
           [fmt_entry "vp9" (Some "https://cdn.example/v2")]
           eq_refl eq_refl eq_refl eq_refl eq_refl).
Defined.

(** C10.  With no top-level URL, when the first entry whose codec is not
    ['none'] has no ['url'], the resolver returns [None]: the scan stops
    there, whatever the later entries hold. *)
Theorem first_video_format_without_url (ydl : pystr → extraction)
    (yt_url : pystr) (d : gmap pystr pyval)
    (nones : list pyval) (f : gmap pystr pyval) (rest : list pyval) :
  ydl yt_url = Returns (VDict d) →
  no_top_level_url d = true →
  d !! lit "formats" = Some (VList (nones ++ VDict f :: rest)) →
  forallb codec_is_none nones = true →
  carries_video (VDict f) = true →
  f !! lit "url" = None →
  result (get_video_stream_url ydl yt_url) = Done VNone.
Proof.
  intros Hy Hu Hf Hn Hv Hnone.
  rewrite (result_fallback ydl yt_url d Hy Hu), Hf.
  cbn [default from_option id]. rewrite result_bind.
  cbn [py_iter ret result snd].
  rewrite (first_video_format_skips nones _ _ Hn).
  rewrite (first_video_format_selects f rest _ Hv), Hnone. reflexivity.
Qed.

Lemma first_video_format_without_url_witness :
  carries_video (fmt_entry "vp9" (Some "https://cdn.example/v2")) = true
  ∧ result (get_video_stream_url
              (λ _, Returns (VDict info_first_video_without_url)) watch_url)
    = Done VNone.
Proof.
  split; [reflexivity|].
  apply (first_video_format_without_url _ watch_url
           info_first_video_without_url
           [fmt_entry "none" (Some "https://cdn.example/a1")]
           {[lit "vcodec" := VStr (lit "h264")]}
           [fmt_entry "vp9" (Some "https://cdn.example/v2")]);
    reflexivity.
Defined.

(** ** [strip] on blank input *)

Lemma lstrip_blank (s : pystr) : forallb isspace s = true → lstrip s = [].
Proof.
  induction s as [|c s IH]; [reflexivity|].
  cbn [forallb lstrip]. intros [Hc Hs]%andb_true_iff. rewrite Hc. auto.
Qed.

Lemma lstrip_cases (s : pystr) :
  (lstrip s = [] ∧ forallb isspace s = true)
  ∨ (∃ c t, lstrip s = c :: t ∧ isspace c = false).
Proof.
  induction s as [|c s IH]; [left; split; reflexivity|].
  cbn [lstrip forallb]. destruct (isspace c) eqn:Hc; [exact IH|].
  right. exists c, s. split; [reflexivity|assumption].
Qed.

Lemma lstrip_keeps_last (s : pystr) (c : N) :
  isspace c = false → lstrip (s ++ [c]) ≠ [].
Proof.
  intros Hc. induction s as [|x s IH]; cbn [app lstrip].
  - rewrite Hc. discriminate.
  - destruct (isspace x); [exact IH|discriminate].
Qed.

Lemma strip_blank (s : pystr) : forallb isspace s = true → strip s = [].
Proof. intros H. unfold strip. rewrite (lstrip_blank s H). reflexivity. Qed.

(** [strip] leaves nothing exactly of the empty and the
    whitespace-only strings. *)
Lemma strip_nil_iff (s : pystr) : strip s = [] ↔ forallb isspace s = true.
Proof.
  split; [|apply strip_blank].
  unfold strip, rstrip. intros H.
  destruct (lstrip_cases s) as [[_ Hs]|(c & t & Hl & Hc)]; [assumption|].
  exfalso. rewrite Hl, reverse_cons in H.
  apply (lstrip_keeps_last (reverse t) c Hc).
  apply (f_equal reverse) in H. rewrite reverse_involutive in H. exact H.
Qed.

(** ** The wait loop *)

Lemma wait_loop_pass (s : State) (passes : list wait_obs) :
  still_playing s = true →
  wait_loop (Reports s :: passes)
  = ([EvGetState; EvSleep 1000] ++ trace (wait_loop passes),
     result (wait_loop passes)).
Proof.
  intros Hs%negb_true_iff. cbn [wait_loop]. rewrite Hs.
  destruct (wait_loop passes) as [t o]. destruct o; reflexivity.
Qed.

Lemma wait_loop_prefix (pre : list State) (passes : list wait_obs) :
  forallb still_playing pre = true →
  wait_loop ((Reports <$> pre) ++ passes)
  = (polling (length pre) ++ trace (wait_loop passes),
     result (wait_loop passes)).
Proof.
  induction pre as [|s pre IH]; intros H.
  - apply run_eta.
  - cbn [forallb] in H. apply andb_true_iff in H as [Hs Hpre].
    cbn [fmap list_fmap app]. rewrite (wait_loop_pass s _ Hs), (IH Hpre).
    cbn [trace result fst snd length polling replicate concat].
    rewrite <- List.app_assoc. reflexivity.
Qed.

(** The loop ends at the first pass in which the engine reports [Ended]
    or [Error], without sleeping again. *)
Lemma wait_loop_exits (pre : list State) (s : State) (post : list wait_obs) :
  forallb still_playing pre = true →
  still_playing s = false →
  wait_loop ((Reports <$> pre) ++ Reports s :: post)
  = (polling (length pre) ++ [EvGetState], Done tt).
Proof.
  intros Hpre Hs%negb_false_iff. rewrite (wait_loop_prefix pre _ Hpre).
  cbn [wait_loop]. rewrite Hs. reflexivity.
Qed.

(** While every report is another state and no interrupt arrives, the
    loop is still polling. *)
Lemma wait_loop_keeps_polling (pre : list State) :
  forallb still_playing pre = true →
  wait_loop (Reports <$> pre) = (polling (length pre), Blocked).
Proof.
  intros Hpre. rewrite <- (app_nil_r (Reports <$> pre)).
  rewrite (wait_loop_prefix pre _ Hpre). cbn. rewrite app_nil_r. reflexivity.
Qed.

(** Hence the loop ends normally only on a report of [Ended] or [Error]. *)
Lemma wait_loop_done_only_on_terminal (passes : list wait_obs) :
  result (wait_loop passes) = Done tt →
  ∃ s, Reports s ∈ passes ∧ still_playing s = false.
Proof.
  induction passes as [|[s|] passes IH]; cbn [wait_loop]; try discriminate.
  destruct (still_playing s) eqn:Hs.
  - pose proof Hs as Hs'%negb_true_iff. rewrite Hs'.
    rewrite !result_bind. cbn. intros H.
    destruct (IH H) as (s' & Hin & Hs''). exists s'. split; [|assumption].
    right. assumption.
  - intros _. exists s. split; [left|assumption].
Qed.

Lemma wait_loop_interrupted (pre : list State) (post : list wait_obs) :
  forallb still_playing pre = true →
  wait_loop ((Reports <$> pre) ++ Interrupt :: post)
  = (polling (length pre), Raised KeyboardInterrupt).
Proof.
  intros Hpre. rewrite (wait_loop_prefix pre _ Hpre). cbn.
  rewrite app_nil_r. reflexivity.
Qed.

(** ** The orchestrator *)

Section MainFacts.

Variable w : world.

Local Abbreviation yt_url := (strip (typed_url w)).
Local Abbreviation resolution := (get_video_stream_url (ydl_of w) yt_url).

Lemma main_blank :
  yt_url = [] →
  main w = ([EvInput "Enter YouTube URL: "; EvPrint "Invalid URL. Exiting."],
            Raised (SystemExit 1)).
Proof.
  intros H. unfold main. cbv zeta. rewrite H. reflexivity.
Qed.

(** From a non-blank line on, [main] is the resolver's run followed by
    what the returned value leads to. *)
Lemma main_after_resolution (v : pyval) :
  yt_url ≠ [] →
  result resolution = Done v →
  let rest : Run unit :=
    (if negb (truthy v)
     then (print "Could not retrieve a valid video stream URL from the provided link." ;;
           sys_exit 1)
     else ret tt) ;;
    start w v ;;
    wait_phase w in
  main w = (EvInput "Enter YouTube URL: " :: trace resolution ++ trace rest,
            result rest).
Proof.
  intros Hne Hv rest. unfold main. cbv zeta.
  destruct (strip (typed_url w)) as [|c s] eqn:Hs; [contradiction|].
  change (truthy (VStr (c :: s))) with true. cbn [negb].
  rewrite (run_eta (get_video_stream_url _ _)), Hv.
  unfold emit, ret.
  rewrite 2!(bind_done (A:=unit)), (bind_done (A:=pyval)). reflexivity.
Qed.

Lemma main_unresolved (v : pyval) :
  yt_url ≠ [] →
  result resolution = Done v →
  truthy v = false →
  main w
  = (EvInput "Enter YouTube URL: " :: trace resolution
       ++ [EvPrint "Could not retrieve a valid video stream URL from the provided link."],
     Raised (SystemExit 1)).
Proof.
  intros Hne Hv Hf. rewrite (main_after_resolution v Hne Hv), Hf. reflexivity.
Qed.

Lemma main_resolved (v : pyval) :
  yt_url ≠ [] →
  result resolution = Done v →
  truthy v = true →
  main w
  = (EvInput "Enter YouTube URL: " :: trace resolution
       ++ trace (start w v ;; wait_phase w),
     result (start w v ;; wait_phase w)).
Proof.
  intros Hne Hv Ht. rewrite (main_after_resolution v Hne Hv), Ht.
  cbn [negb]. unfold ret. rewrite (bind_done (A:=unit)). reflexivity.
Qed.

Lemma start_construction_fails (v : pyval) (e : error) :
  media_player w v = Some e →
  start w v
  = ([EvPrint "Starting video playback..."; EvMediaPlayer v;
      EvPrintError "Error initializing VLC MediaPlayer:" e],
     Raised (SystemExit 1)).
Proof. intros H. unfold start, construct_player. rewrite H. reflexivity. Qed.

Lemma start_play_fails (v : pyval) :
  media_player w v = None →
  play_returns w = -1 →
  start w v
  = ([EvPrint "Starting video playback..."; EvMediaPlayer v; EvPlay;
      EvPrint "VLC failed to start playback. Check your VLC installation."],
     Raised (SystemExit 1)).
Proof.
  intros H Hp. unfold start, construct_player. rewrite H, Hp. reflexivity.
Qed.

Lemma start_succeeds (v : pyval) :
  media_player w v = None →
  play_returns w ≠ -1 →
  start w v
  = ([EvPrint "Starting video playback..."; EvMediaPlayer v; EvPlay], Done tt).
Proof.
  intros H Hp%Z.eqb_neq. unfold start, construct_player. rewrite H, Hp.
  reflexivity.
Qed.

(** When the player starts, the rest of [main] is the wait phase. *)
Lemma main_reaches_wait_phase (v : pyval) :
  yt_url ≠ [] →
  result resolution = Done v →
  truthy v = true →
  media_player w v = None →
  play_returns w ≠ -1 →
  main w
  = ((EvInput "Enter YouTube URL: " :: trace resolution
        ++ [EvPrint "Starting video playback..."; EvMediaPlayer v])
       ++ EvPlay :: trace (wait_phase w),
     result (wait_phase w)).
Proof.
  intros Hne Hv Ht Hc Hp.
  rewrite (main_resolved v Hne Hv Ht), (start_succeeds v Hc Hp).
  rewrite (bind_done (A:=unit)). cbn [trace result fst snd app].
  rewrite <- List.app_assoc. reflexivity.
Qed.

End MainFacts.

Lemma wait_phase_interrupted (w : world) (pre : list State) (post : list wait_obs) :
  wait_passes w = (Reports <$> pre) ++ Interrupt :: post →
  forallb still_playing pre = true →
  wait_phase w
  = ([EvSleep 1000; EvGetState;
      EvPrintState "Initial VLC player state:" (initial_state w);
      EvStartListener]
       ++ polling (length pre)
       ++ [EvPrint "Playback interrupted by user (KeyboardInterrupt).";
           EvPrint "Video playback ended."],
     Done tt).
Proof.
  intros Hw Hpre. unfold wait_phase.
  rewrite Hw, (wait_loop_interrupted pre post Hpre).
  cbn. rewrite <- List.app_assoc. reflexivity.
Qed.

(** The wait phase ends normally or is still waiting: it never exits
    with a failure. *)
Lemma wait_phase_ends_well (w : world) :
  result (wait_phase w) = Done tt ∨ result (wait_phase w) = Blocked.
Proof.
  unfold wait_phase.
  assert (H : ∀ passes, ∃ t, wait_loop passes = (t, Done tt)
                          ∨ wait_loop passes = (t, Blocked)
                          ∨ wait_loop passes = (t, Raised KeyboardInterrupt)).
  { induction passes as [|[s|] passes IH]; cbn [wait_loop].
    - eexists; right; left; reflexivity.
    - destruct (bool_decide _); [eexists; left; reflexivity|].
      destruct IH as [t [->|[->| ->]]]; eexists; cbn; eauto.
    - eexists; right; right; reflexivity. }
  destruct (H (wait_passes w)) as [t [->|[->| ->]]]; cbn; auto.
Qed.

(** *** The claims on the orchestrator *)

(** C2.  When the line typed at the URL prompt is empty or holds only
    whitespace, [main] prints its message and exits with status 1, and
    the resolver is not called: no extraction is asked for. *)
Theorem blank_url_exits_before_resolution (w : world) :
  forallb isspace (typed_url w) = true →
  trace (main w)
  = [EvInput "Enter YouTube URL: "; EvPrint "Invalid URL. Exiting."]
  ∧ process_end_of (result (main w)) = ExitStatus 1
  ∧ ∀ u, EvExtractInfo u ∉ trace (main w).
Proof.
  intros H%strip_blank. rewrite (main_blank w H). cbn.
  repeat split. intros u Hin.
  repeat (apply elem_of_cons in Hin as [Hin|Hin]; [discriminate|]).
  inversion Hin.
Qed.

Lemma blank_url_exits_before_resolution_witness :
  trace (main blank_world)
  = [EvInput "Enter YouTube URL: "; EvPrint "Invalid URL. Exiting."]
  ∧ process_end_of (result (main blank_world)) = ExitStatus 1
  ∧ ∀ u, EvExtractInfo u ∉ trace (main blank_world).
Proof. apply (blank_url_exits_before_resolution blank_world). reflexivity. Defined.

(** Conversely, any other line reaches the resolver, which is asked for
    the stripped line. *)
Lemma nonblank_url_is_resolved (w : world) :
  forallb isspace (typed_url w) = false →
  EvExtractInfo (strip (typed_url w)) ∈ trace (main w).
Proof.
  intros H.
  assert (Hne : strip (typed_url w) ≠ []).
  { intros Hs%strip_nil_iff. congruence. }
  destruct (get_video_stream_url_returns (ydl_of w) (strip (typed_url w)))
    as [v Hv].
  rewrite (main_after_resolution w v Hne Hv). cbn [trace fst].
  destruct (resolver_asks_library (ydl_of w) (strip (typed_url w))) as [t ->].
  right. left.
Qed.

Lemma playing_world_resolves (ctor : option error) (play : Z)
    (passes : list wait_obs) :
  let w := playing_world ctor play passes in
  strip (typed_url w) ≠ []
  ∧ result (get_video_stream_url (ydl_of w) (strip (typed_url w)))
    = Done direct_url
  ∧ truthy direct_url = true.
Proof. vm_compute. repeat split. discriminate. Qed.

(** C9.  Once a stream URL is resolved, [main] fails in the start step in
    two cases, each with its message and exit status 1: the player's
    construction raises, or [play()] returns [-1].  In every other case
    the run goes on with the wait phase, which does not fail. *)
Theorem start_failures (w : world) (v : pyval) :
  strip (typed_url w) ≠ [] →
  result (get_video_stream_url (ydl_of w) (strip (typed_url w))) = Done v →
  truthy v = true →
  let before :=
    EvInput "Enter YouTube URL: "
      :: trace (get_video_stream_url (ydl_of w) (strip (typed_url w)))
      ++ [EvPrint "Starting video playback..."; EvMediaPlayer v] in
  (∀ e, media_player w v = Some e →
        main w
        = (before ++ [EvPrintError "Error initializing VLC MediaPlayer:" e],
           Raised (SystemExit 1)))
  ∧ (media_player w v = None → play_returns w = -1 →
     main w
     = (before ++ [EvPlay;
                   EvPrint "VLC failed to start playback. Check your VLC installation."],
        Raised (SystemExit 1)))
  ∧ (media_player w v = None → play_returns w ≠ -1 →
     main w = (before ++ EvPlay :: trace (wait_phase w), result (wait_phase w))
     ∧ (result (main w) = Done tt ∨ result (main w) = Blocked)).
Proof.
  intros Hne Hv Ht before. subst before.
  rewrite (main_resolved w v Hne Hv Ht).
  split; [|split].
  - intros e He. rewrite (start_construction_fails w v e He).
    cbn. rewrite <- List.app_assoc. reflexivity.
  - intros Hc Hp. rewrite (start_play_fails w v Hc Hp).
    cbn. rewrite <- List.app_assoc. reflexivity.
  - intros Hc Hp. rewrite <- (main_resolved w v Hne Hv Ht).
    rewrite (main_reaches_wait_phase w v Hne Hv Ht Hc Hp).
    split; [reflexivity|apply wait_phase_ends_well].
Qed.

Lemma start_failures_witness :
  result (main (playing_world (Some (LibraryError (lit "no libvlc"))) 0 []))
  = Raised (SystemExit 1)
  ∧ result (main (playing_world None (-1) [])) = Raised (SystemExit 1)
  ∧ result (main (playing_world None 0 [Reports Playing; Reports Ended]))
    = Done tt.
Proof.
  split; [|split].
  - destruct (playing_world_resolves (Some (LibraryError (lit "no libvlc"))) 0 [])
      as (Hne & Hv & Ht).
    destruct (start_failures _ _ Hne Hv Ht) as (H & _ & _).
    rewrite (H _ eq_refl). reflexivity.
  - destruct (playing_world_resolves None (-1) []) as (Hne & Hv & Ht).
    destruct (start_failures _ _ Hne Hv Ht) as (_ & H & _).
    rewrite (H eq_refl eq_refl). reflexivity.
  - destruct (playing_world_resolves None 0 [Reports Playing; Reports Ended])
      as (Hne & Hv & Ht).
    destruct (start_failures _ _ Hne Hv Ht) as (_ & _ & H).
    destruct (H eq_refl ltac:(discriminate)) as [-> _]. reflexivity.
Defined.

(** C6.  When [KeyboardInterrupt] arrives in a pass of the wait loop,
    before any report of [Ended] or [Error], the loop is left at once,
    the interrupt message and then the completion message are printed,
    and the process ends with status 0. *)
Theorem interrupt_is_normal_termination (w : world) (v : pyval)
    (pre : list State) (post : list wait_obs) :
  strip (typed_url w) ≠ [] →
  result (get_video_stream_url (ydl_of w) (strip (typed_url w))) = Done v →
  truthy v = true →
  media_player w v = None →
  play_returns w ≠ -1 →
  wait_passes w = (Reports <$> pre) ++ Interrupt :: post →
  forallb still_playing pre = true →
  process_end_of (result (main w)) = ExitStatus 0
  ∧ ∃ t, trace (main w)
         = t ++ EvStartListener :: polling (length pre)
             ++ [EvPrint "Playback interrupted by user (KeyboardInterrupt).";
                 EvPrint "Video playback ended."].
Proof.
  intros Hne Hv Ht Hc Hp Hw Hpre.
  rewrite (main_reaches_wait_phase w v Hne Hv Ht Hc Hp).
  rewrite (wait_phase_interrupted w pre post Hw Hpre).
  cbn [trace result fst snd process_end_of].
  split; [reflexivity|].
  exists ((EvInput "Enter YouTube URL: "
             :: trace (get_video_stream_url (ydl_of w) (strip (typed_url w)))
             ++ [EvPrint "Starting video playback..."; EvMediaPlayer v])
          ++ [EvPlay; EvSleep 1000; EvGetState;
              EvPrintState "Initial VLC player state:" (initial_state w)]).
  rewrite <- (List.app_assoc _ [_; _; _; _]). reflexivity.
Qed.

Lemma interrupt_is_normal_termination_witness :
  let w := playing_world None 0
             [Reports Playing; Reports Paused; Interrupt; Reports Playing] in
  process_end_of (result (main w)) = ExitStatus 0
  ∧ ∃ t, trace (main w)
         = t ++ EvStartListener :: polling 2
             ++ [EvPrint "Playback interrupted by user (KeyboardInterrupt).";
                 EvPrint "Video playback ended."].
Proof.
  intros w.
  destruct (playing_world_resolves None 0
              [Reports Playing; Reports Paused; Interrupt; Reports Playing])
    as (Hne & Hv & Ht).
  exact (interrupt_is_normal_termination w direct_url
           [Playing; Paused] [Reports Playing]
           Hne Hv Ht eq_refl ltac:(discriminate) eq_refl eq_refl).
Defined.

(** ** When resolution fails *)

(** On a list of dicts the fallback loop is a search for the first
    entry that carries video. *)
Lemma first_video_format_find (fmts : list pyval) (v : pyval) :
  forallb is_dict fmts = true →
  result (first_video_format fmts v)
  = Done (match List.find carries_video fmts with
          | Some fmt => entry_url fmt
          | None => v
          end).
Proof.
  induction fmts as [|x fmts IH]; [reflexivity|].
  cbn [forallb]. intros [Hx Hf]%andb_true_iff.
  destruct x as [| | | | |f]; try discriminate.
  cbn [first_video_format List.find carries_video].
  rewrite result_bind, result_py_get.
  destruct (py_ne_str _ _); [apply result_py_get|auto].
Qed.

Lemma result_direct (ydl : pystr → extraction) (yt_url : pystr)
    (d : gmap pystr pyval) :
  ydl yt_url = Returns (VDict d) →
  no_top_level_url d = false →
  result (get_video_stream_url ydl yt_url)
  = Done (default VNone (d !! lit "url")).
Proof.
  intros Hy Hu%negb_false_iff. unfold get_video_stream_url, extract_info.
  rewrite Hy, result_try_except_Exception, !result_bind.
  cbn [emit result snd ret]. rewrite result_bind, result_py_get, Hu.
  reflexivity.
Qed.

Lemma result_raises (ydl : pystr → extraction) (yt_url : pystr) (e : error) :
  ydl yt_url = Raises e →
  result (get_video_stream_url ydl yt_url) = Done VNone.
Proof.
  intros Hy. unfold get_video_stream_url, extract_info. rewrite Hy.
  reflexivity.
Qed.

(** On any list the fallback loop, under the [except] clause, yields
    the ['url'] field of the entry it stops at ([None] for an entry that
    is not a dict), and the value it started from when it stops
    nowhere. *)
Lemma scan_value (fmts : list pyval) (top : pyval) :
  match result (first_video_format fmts top) with
  | Raised (Err _) => Done VNone
  | o => o
  end
  = Done (match scan_stop fmts with
          | Some fmt => entry_url fmt
          | None => top
          end).
Proof.
  unfold scan_stop.
  induction fmts as [|x fmts IH]; [reflexivity|].
  cbn [first_video_format List.find]. rewrite result_bind, result_py_get.
  destruct x as [| | | | |f]; try reflexivity.
  cbn [codec_is_none entry_url]. rewrite negb_involutive.
  destruct (py_ne_str _ _); [rewrite result_py_get; reflexivity|exact IH].
Qed.

(** The value of the resolver is falsy exactly in the cases of
    [resolution_fails]. *)
Lemma resolution_fails_correct (ydl : pystr → extraction) (yt_url : pystr) :
  ∃ v, result (get_video_stream_url ydl yt_url) = Done v
       ∧ (truthy v = false ↔ resolution_fails (ydl yt_url) = true).
Proof.
  destruct (ydl yt_url) as [info|e] eqn:Hy.
  2:{ exists VNone. rewrite (result_raises ydl yt_url e Hy).
      split; [reflexivity|split; reflexivity]. }
  destruct (is_dict info) eqn:Hd.
  2:{ exists VNone. split.
      - unfold get_video_stream_url, extract_info. rewrite Hy.
        destruct info; try discriminate; reflexivity.
      - destruct info; try discriminate; split; reflexivity. }
  destruct info as [| | | | |d]; try discriminate.
  cbn [resolution_fails].
  destruct (no_top_level_url d) eqn:Hu.
  2:{ exists (default VNone (d !! lit "url")).
      split; [exact (result_direct ydl yt_url d Hy Hu)|].
      apply negb_false_iff in Hu. rewrite Hu. split; discriminate. }
  rewrite (result_fallback ydl yt_url d Hy Hu).
  pose proof Hu as Hfalsy%negb_true_iff.
  rewrite result_bind.
  destruct (default (VList []) (d !! lit "formats")) as [| | |s|fmts|g];
    cbn [py_iter ret raise result snd andb].
  - exists VNone. split; [reflexivity|split; reflexivity].
  - exists VNone. split; [reflexivity|split; reflexivity].
  - exists VNone. split; [reflexivity|split; reflexivity].
  - destruct s as [|c s].
    + exists (default VNone (d !! lit "url")).
      split; [reflexivity|split; [reflexivity|intros _; exact Hfalsy]].
    + exists VNone. split; [reflexivity|split; reflexivity].
  - rewrite (scan_value fmts (default VNone (d !! lit "url"))).
    eexists. split; [reflexivity|].
    destruct (scan_stop fmts) as [fmt|].
    + rewrite negb_true_iff. reflexivity.
    + split; [reflexivity|intros _; exact Hfalsy].
  - destruct ((map_to_list g).*1) as [|k ks].
    + exists (default VNone (d !! lit "url")).
      split; [reflexivity|split; [reflexivity|intros _; exact Hfalsy]].
    + exists VNone. split; [reflexivity|split; reflexivity].
Qed.

(** C5 as stated does not hold: here the library does not raise and the
    format list is neither empty nor all ['none'], yet the resolver
    returns [None]. *)
Lemma resolution_fails_outside_claimed_cases :
  ¬ (result (get_video_stream_url
               (λ _, Returns (VDict info_first_video_without_url)) watch_url)
     = Done VNone
     ↔ claimed_failure_case (Returns (VDict info_first_video_without_url))
       = true).
Proof.
  intros [H _].
  assert (Hr : result (get_video_stream_url
                         (λ _, Returns (VDict info_first_video_without_url))
                         watch_url) = Done VNone) by (vm_compute; reflexivity).
  specialize (H Hr). vm_compute in H. discriminate.
Qed.

(** C5, amended.  The value the resolver returns is falsy, which is what
    [main] takes for failure, exactly in the cases of
    [resolution_fails], whatever the library returns or raises.  In
    those cases [main], given a non-blank line, prints its diagnostic
    after the resolver's run and exits with status 1; in every other
    case it goes on to start the player with the value. *)
Theorem resolution_failure_cases (w : world) :
  (∃ v, result (get_video_stream_url (ydl_of w) (strip (typed_url w)))
        = Done v
        ∧ (truthy v = false
           ↔ resolution_fails (ydl_of w (strip (typed_url w))) = true))
  ∧ (strip (typed_url w) ≠ [] →
     resolution_fails (ydl_of w (strip (typed_url w))) = true →
     main w
     = (EvInput "Enter YouTube URL: "
          :: trace (get_video_stream_url (ydl_of w) (strip (typed_url w)))
          ++ [EvPrint "Could not retrieve a valid video stream URL from the provided link."],
        Raised (SystemExit 1)))
  ∧ (strip (typed_url w) ≠ [] →
     resolution_fails (ydl_of w (strip (typed_url w))) = false →
     ∃ v, truthy v = true
          ∧ main w
            = (EvInput "Enter YouTube URL: "
                 :: trace (get_video_stream_url (ydl_of w) (strip (typed_url w)))
                 ++ trace (start w v ;; wait_phase w),
               result (start w v ;; wait_phase w))).
Proof.
  destruct (resolution_fails_correct (ydl_of w) (strip (typed_url w)))
    as (v & Hv & Hiff).
  split; [exists v; split; assumption|]. split.
  - intros Hne Hf. apply (main_unresolved w v Hne Hv). apply Hiff, Hf.
  - intros Hne Hf. exists v.
    assert (Ht : truthy v = true).
    { destruct (truthy v); [reflexivity|].
      rewrite (proj1 Hiff eq_refl) in Hf. discriminate. }
    split; [exact Ht|exact (main_resolved w v Hne Hv Ht)].
Qed.

Lemma resolution_failure_cases_witness :
  resolution_fails
    (ydl_of unresolved_world (strip (typed_url unresolved_world))) = true
  ∧ result (main unresolved_world) = Raised (SystemExit 1).
Proof.
  assert (Hf : resolution_fails
                 (ydl_of unresolved_world
                    (strip (typed_url unresolved_world))) = true)
    by (vm_compute; reflexivity).
  destruct (resolution_failure_cases unresolved_world) as (_ & H & _).
  split; [exact Hf|].
  rewrite (H ltac:(vm_compute; discriminate) Hf). reflexivity.
Defined.

(** ** The control listener *)

Section ListenerFacts.

Variable unicode_lower : pystr → pystr.

Lemma line_loop_step (line : pystr) (lines : list pystr) :
  line_loop unicode_lower (line :: lines)
  = if bool_decide (command_of unicode_lower line = lit "q")
    then ([EvInput "Command: ";
           EvPrint "Stop command received from input. Stopping playback...";
           EvStop], Done tt)
    else if bool_decide (command_of unicode_lower line = lit "p")
    then ([EvInput "Command: ";
           EvPrint "Pause/resume command received from input. Toggling pause/resume...";
           EvPause] ++ trace (line_loop unicode_lower lines),
          result (line_loop unicode_lower lines))
    else ([EvInput "Command: ";
           EvPrint "Invalid command. Please enter 'q' or 'p'."]
            ++ trace (line_loop unicode_lower lines),
          result (line_loop unicode_lower lines)).
Proof.
  cbn [line_loop]. unfold command_of.
  destruct (bool_decide (_ = lit "q")); [reflexivity|].
  destruct (bool_decide (_ = lit "p"));
    destruct (line_loop unicode_lower lines) as [t [[]| |]]; reflexivity.
Qed.

(** The line loop issues the commands of [issued], in that order. *)
Lemma commands_line_loop (lines : list pystr) :
  commands (trace (line_loop unicode_lower lines)) = issued unicode_lower lines.
Proof.
  induction lines as [|line lines IH]; [reflexivity|].
  rewrite line_loop_step. cbn [issued].
  destruct (bool_decide (_ = lit "q")); [reflexivity|].
  destruct (bool_decide (_ = lit "p")); cbn; rewrite <- IH; reflexivity.
Qed.

(** The line loop ends when some line is a [q], and only then. *)
Lemma line_loop_ends_iff (lines : list pystr) :
  result (line_loop unicode_lower lines)
  = if existsb (λ line, bool_decide (command_of unicode_lower line = lit "q"))
         lines
    then Done tt else Blocked.
Proof.
  induction lines as [|line lines IH]; [reflexivity|].
  rewrite line_loop_step. cbn [existsb].
  destruct (bool_decide (_ = lit "q")); [reflexivity|].
  destruct (bool_decide (_ = lit "p")); cbn; exact IH.
Qed.

End ListenerFacts.

(** C7.  In line-input mode the lines [p], [x], [q] issue one pause and
    then one stop and nothing else; the [x] gets the rejection message
    and a new prompt only; and the listener ends after the [q], not
    before. *)
Theorem line_mode_p_x_q (unicode_lower : pystr → pystr)
    (polls : list (bool * bool)) :
  let listen := listen_for_controls unicode_lower false polls in
  listen [lit "p"; lit "x"; lit "q"]
  = ([EvPrint "Enter command: 'q' to quit or 'p' to toggle pause/resume.";
      EvInput "Command: ";
      EvPrint "Pause/resume command received from input. Toggling pause/resume...";
      EvPause;
      EvInput "Command: ";
      EvPrint "Invalid command. Please enter 'q' or 'p'.";
      EvInput "Command: ";
      EvPrint "Stop command received from input. Stopping playback...";
      EvStop],
     Done tt)
  ∧ commands (trace (listen [lit "p"; lit "x"; lit "q"])) = [EvPause; EvStop]
  ∧ result (listen []) = Blocked
  ∧ result (listen [lit "p"]) = Blocked
  ∧ result (listen [lit "p"; lit "x"]) = Blocked.
Proof. intros listen. subst listen. repeat split; vm_compute; reflexivity. Qed.

(** C8.  The pause command is a toggle: it turns playing into paused and
    paused into playing, and two in succession give back the state they
    started from, whether they come from two [p] lines or from two
    passes of the hook loop that see the [p] key down. *)
Theorem pause_toggle_twice (unicode_lower : pystr → pystr) (s : State) :
  pause_toggle Playing = Paused
  ∧ pause_toggle Paused = Playing
  ∧ pause_toggle (pause_toggle s) = s
  ∧ after_pauses (trace (line_loop unicode_lower [lit "p"; lit "p"])) s = s
  ∧ after_pauses (trace (hook_loop [(false, true); (false, true)])) s = s.
Proof. destruct s; repeat split; vm_compute; reflexivity. Qed.

(** * Further properties *)

(** ** The resolver on results of any shape *)

Lemma trace_py_get obj key dflt : trace (py_get obj key dflt) = [EvGet obj key].
Proof. destruct obj; reflexivity. Qed.

Lemma forallb_app_true {A} (f : A → bool) (l1 l2 : list A) :
  forallb f l1 = true → forallb f l2 = true → forallb f (l1 ++ l2) = true.
Proof. intros H1 H2. rewrite forallb_app, H1, H2. reflexivity. Qed.

Lemma first_video_format_events (fmts : list pyval) (v : pyval) :
  forallb lookup_event (trace (first_video_format fmts v)) = true.
Proof.
  induction fmts as [|x fmts IH]; [reflexivity|].
  cbn [first_video_format]. rewrite trace_bind, trace_py_get, result_py_get.
  destruct x; try reflexivity.
  cbn [app forallb lookup_event andb].
  destruct (py_ne_str _ _); [rewrite trace_py_get; reflexivity|exact IH].
Qed.

(** After its first event, the library call, the resolver only reads
    keys and, at most, prints its error line. *)
Lemma resolver_events (ydl : pystr → extraction) (yt_url : pystr) :
  ∃ t, trace (get_video_stream_url ydl yt_url) = EvExtractInfo yt_url :: t
       ∧ forallb lookup_event t = true.
Proof.
  unfold get_video_stream_url, extract_info.
  destruct (ydl yt_url) as [info|e]; [|eexists; split; reflexivity].
  unfold emit, ret at 1. rewrite (bind_done (A:=unit)).
  cbn [trace result fst snd app]. rewrite (bind_done (A:=pyval)).
  rewrite trace_try_except_Exception. cbn [trace result fst snd app].
  eexists. split; [reflexivity|].
  apply forallb_app_true.
  - rewrite trace_bind, trace_py_get, result_py_get.
    destruct info as [| | | | |d]; try reflexivity.
    cbn [app forallb lookup_event andb].
    destruct (truthy _); cbn [negb]; [reflexivity|].
    rewrite trace_bind, trace_py_get, result_py_get.
    cbn [app forallb lookup_event andb].
    rewrite trace_bind.
    destruct (default (VList []) (d !! lit "formats")); cbn [py_iter];
      try reflexivity; cbn [ret raise trace result fst snd app];
      apply first_video_format_events.
  - destruct (result _) as [a|[c| |e]|]; reflexivity.
Qed.

Lemma scan_origin (fmts : list pyval) (top : pyval) :
  match result (first_video_format fmts top) with
  | Done v => v = top ∨ ∃ f, VDict f ∈ fmts ∧ v = default VNone (f !! lit "url")
  | Raised (Err _) => True
  | _ => False
  end.
Proof.
  induction fmts as [|x fmts IH]; [left; reflexivity|].
  cbn [first_video_format]. rewrite result_bind, result_py_get.
  destruct x as [| | | | |f]; try exact I.
  destruct (py_ne_str _ _).
  - rewrite result_py_get. right. exists f. split; [left|reflexivity].
  - destruct (result (first_video_format fmts top)) as [v|[c| |e]|];
      try exact IH.
    destruct IH as [->|(g & Hin & ->)]; [left; reflexivity|].
    right. exists g. split; [right; exact Hin|reflexivity].
Qed.




(** X2.  When the library returns something that is not a dict ([None]
    included), reading ['url'] fails; the resolver prints its error line
    and returns [None], having read nothing else. *)
Theorem non_dict_info_gives_none (ydl : pystr → extraction)
    (yt_url : pystr) (info : pyval) :
  ydl yt_url = Returns info →
  is_dict info = false →
  get_video_stream_url ydl yt_url
  = ([EvExtractInfo yt_url; EvGet info (lit "url");
      EvPrintError "Error extracting video info:" AttributeError],
     Done VNone).
Proof.
  intros Hy Hd. unfold get_video_stream_url, extract_info. rewrite Hy.
  destruct info; try discriminate; reflexivity.
Qed.

Lemma non_dict_info_gives_none_witness :
  get_video_stream_url (λ _, Returns (VList [])) watch_url
  = ([EvExtractInfo watch_url; EvGet (VList []) (lit "url");
      EvPrintError "Error extracting video info:" AttributeError],
     Done VNone).
Proof.
  apply (non_dict_info_gives_none _ watch_url (VList [])); reflexivity.
Defined.

(** X3.  A ['formats'] key that is present but holds [None], a bool or
    an int is not replaced by the default empty list: with no top-level
    URL the loop cannot start and the resolver returns [None]. *)
Theorem formats_not_iterable_gives_none (ydl : pystr → extraction)
    (yt_url : pystr) (d : gmap pystr pyval) (formats : pyval) :
  ydl yt_url = Returns (VDict d) →
  no_top_level_url d = true →
  d !! lit "formats" = Some formats →
  not_iterable formats = true →
  result (get_video_stream_url ydl yt_url) = Done VNone
  ∧ EvPrintError "Error extracting video info:" TypeError
    ∈ trace (get_video_stream_url ydl yt_url).
Proof.
  intros Hy Hu Hf Hn. split.
  - rewrite (result_fallback ydl yt_url d Hy Hu), Hf.
    destruct formats; try discriminate; reflexivity.
  - unfold get_video_stream_url. rewrite trace_try_except_Exception.
    apply negb_true_iff in Hu.
    match goal with |- _ ∈ _ ++ match ?r with _ => _ end =>
      assert (Hb : r = Raised (Err TypeError)) end.
    { unfold extract_info. rewrite Hy.
      repeat first [ rewrite result_bind | rewrite result_py_get
                   | rewrite Hu | rewrite Hf
                   | progress cbn [emit ret result snd negb] ].
      destruct formats; try discriminate; reflexivity. }
    rewrite Hb. apply elem_of_app. right. left.
Qed.

Lemma formats_not_iterable_gives_none_witness :
  result (get_video_stream_url
            (λ _, Returns (VDict {[lit "formats" := VNone]})) watch_url)
  = Done VNone
  ∧ EvPrintError "Error extracting video info:" TypeError
    ∈ trace (get_video_stream_url
               (λ _, Returns (VDict {[lit "formats" := VNone]})) watch_url).
Proof.
  apply (formats_not_iterable_gives_none _ watch_url
           {[lit "formats" := VNone]} VNone); reflexivity.
Defined.

(** X4.  With no top-level URL, when the scan meets an entry that is not
    a dict before any entry with video, the resolver returns [None],
    even if an entry with video and a URL comes later. *)
Theorem malformed_entry_stops_scan (ydl : pystr → extraction)
    (yt_url : pystr) (d : gmap pystr pyval)
    (nones : list pyval) (x : pyval) (rest : list pyval) :
  ydl yt_url = Returns (VDict d) →
  no_top_level_url d = true →
  d !! lit "formats" = Some (VList (nones ++ x :: rest)) →
  forallb codec_is_none nones = true →
  is_dict x = false →
  result (get_video_stream_url ydl yt_url) = Done VNone.
Proof.
  intros Hy Hu Hf Hn Hx.
  rewrite (result_fallback ydl yt_url d Hy Hu), Hf.
  cbn [default from_option id]. rewrite result_bind.
  cbn [py_iter ret result snd].
  rewrite (first_video_format_skips nones _ _ Hn).
  cbn [first_video_format]. rewrite result_bind, result_py_get.
  destruct x; try discriminate; reflexivity.
Qed.

Lemma malformed_entry_stops_scan_witness :
  result (get_video_stream_url
            (λ _, Returns (VDict {[lit "formats" :=
               VList [fmt_entry "none" (Some "https://cdn.example/a1");
                      VNone;
                      fmt_entry "vp9" (Some "https://cdn.example/v2")]]}))
            watch_url)
  = Done VNone.
Proof.
  apply (malformed_entry_stops_scan _ watch_url
           {[lit "formats" :=
               VList [fmt_entry "none" (Some "https://cdn.example/a1");
                      VNone;
                      fmt_entry "vp9" (Some "https://cdn.example/v2")]]}
           [fmt_entry "none" (Some "https://cdn.example/a1")]
           VNone
           [fmt_entry "vp9" (Some "https://cdn.example/v2")]);
    reflexivity.
Defined.

(** X5.  An entry without a ['vcodec'] key counts as carrying video:
    with no top-level URL, the first such entry after entries of codec
    ['none'] is the one whose ['url'] is returned. *)
Theorem missing_vcodec_counts_as_video (ydl : pystr → extraction)
    (yt_url : pystr) (d : gmap pystr pyval)
    (nones : list pyval) (f : gmap pystr pyval) (rest : list pyval) :
  ydl yt_url = Returns (VDict d) →
  no_top_level_url d = true →
  d !! lit "formats" = Some (VList (nones ++ VDict f :: rest)) →
  forallb codec_is_none nones = true →
  f !! lit "vcodec" = None →
  result (get_video_stream_url ydl yt_url)
  = Done (default VNone (f !! lit "url")).
Proof.
  intros Hy Hu Hf Hn Hv.
  rewrite (result_fallback ydl yt_url d Hy Hu), Hf.
  cbn [default from_option id]. rewrite result_bind.
  cbn [py_iter ret result snd].
  rewrite (first_video_format_skips nones _ _ Hn).
  rewrite (first_video_format_selects f rest); [reflexivity|].
  cbn [carries_video]. rewrite Hv. reflexivity.
Qed.

Lemma missing_vcodec_counts_as_video_witness :
  result (get_video_stream_url
            (λ _, Returns (VDict {[lit "formats" :=
               VList [fmt_entry "none" (Some "https://cdn.example/a1");
                      VDict {[lit "url" := VStr (lit "https://cdn.example/x")]}]]}))
            watch_url)
  = Done (VStr (lit "https://cdn.example/x")).
Proof.
  exact (missing_vcodec_counts_as_video
           (λ _, Returns (VDict {[lit "formats" :=
              VList [fmt_entry "none" (Some "https://cdn.example/a1");
                     VDict {[lit "url" := VStr (lit "https://cdn.example/x")]}]]}))
           watch_url _
           [fmt_entry "none" (Some "https://cdn.example/a1")]
           {[lit "url" := VStr (lit "https://cdn.example/x")]} []
           eq_refl eq_refl eq_refl eq_refl eq_refl).
Defined.

(** X6.  With a falsy top-level value and no entry that carries video
    (no ['formats'] key, an empty list, or codec ['none'] throughout),
    the resolver returns the top-level value itself: [None] when the key
    is absent, but also an empty string when that is what the library
    gave. *)
Theorem no_video_returns_top_level (ydl : pystr → extraction)
    (yt_url : pystr) (d : gmap pystr pyval) :
  ydl yt_url = Returns (VDict d) →
  no_top_level_url d = true →
  all_codecs_none d = true →
  result (get_video_stream_url ydl yt_url)
  = Done (default VNone (d !! lit "url")).
Proof.
  intros Hy Hu Ha. rewrite (result_fallback ydl yt_url d Hy Hu).
  unfold all_codecs_none in Ha.
  destruct (default (VList []) (d !! lit "formats")) as [| | | |fmts|];
    try discriminate.
  rewrite result_bind. cbn [py_iter ret result snd].
  rewrite (first_video_format_all_none fmts _ Ha). reflexivity.
Qed.

Lemma no_video_returns_top_level_witness :
  result (get_video_stream_url
            (λ _, Returns (VDict {[lit "url" := VStr []]})) watch_url)
  = Done (VStr []).
Proof.
  exact (no_video_returns_top_level
           (λ _, Returns (VDict {[lit "url" := VStr []]})) watch_url
           {[lit "url" := VStr []]} eq_refl eq_refl eq_refl).
Defined.

(** X7.  With no top-level URL and a format list made of dicts, the
    fallback loop is a search: the result is the ['url'] field of the
    first entry whose codec differs from ['none'], and the top-level
    value when there is no such entry. *)
Theorem fallback_is_first_match (ydl : pystr → extraction)
    (yt_url : pystr) (d : gmap pystr pyval) (fmts : list pyval) :
  ydl yt_url = Returns (VDict d) →
  no_top_level_url d = true →
  default (VList []) (d !! lit "formats") = VList fmts →
  forallb is_dict fmts = true →
  result (get_video_stream_url ydl yt_url)
  = Done (match List.find carries_video fmts with
          | Some fmt => entry_url fmt
          | None => default VNone (d !! lit "url")
          end).
Proof.
  intros Hy Hu Hf Hd. rewrite (result_fallback ydl yt_url d Hy Hu), Hf.
  rewrite result_bind. cbn [py_iter ret result snd].
  rewrite (first_video_format_find fmts _ Hd). reflexivity.
Qed.

Lemma fallback_is_first_match_witness :
  result (get_video_stream_url (λ _, Returns (VDict info_fallback)) watch_url)
  = Done (VStr (lit "https://cdn.example/v1")).
Proof.
  exact (fallback_is_first_match
           (λ _, Returns (VDict info_fallback)) watch_url info_fallback
           [fmt_entry "none" (Some "https://cdn.example/a1");
            fmt_entry "none" (Some "https://cdn.example/a2");
            fmt_entry "h264" (Some "https://cdn.example/v1");
            fmt_entry "vp9" (Some "https://cdn.example/v2")]
           eq_refl eq_refl eq_refl eq_refl).
Defined.

(** X8.  The resolver makes nothing up: on a dict with a format list,
    what it returns is [None], the top-level value, or the ['url'] field
    of one of the entries. *)
Theorem resolver_result_origin (ydl : pystr → extraction)
    (yt_url : pystr) (d : gmap pystr pyval) (fmts : list pyval) (v : pyval) :
  ydl yt_url = Returns (VDict d) →
  default (VList []) (d !! lit "formats") = VList fmts →
  result (get_video_stream_url ydl yt_url) = Done v →
  v = VNone
  ∨ v = default VNone (d !! lit "url")
  ∨ ∃ f, VDict f ∈ fmts ∧ v = default VNone (f !! lit "url").
Proof.
  intros Hy Hf. destruct (no_top_level_url d) eqn:Hu.
  - rewrite (result_fallback ydl yt_url d Hy Hu), Hf.
    rewrite result_bind. cbn [py_iter ret result snd].
    pose proof (scan_origin fmts (default VNone (d !! lit "url"))) as H.
    destruct (result (first_video_format fmts _)) as [a|[c| |e]|];
      try contradiction.
    + intros [= <-]. right. exact H.
    + intros [= <-]. left. reflexivity.
  - rewrite (result_direct ydl yt_url d Hy Hu). intros [= <-].
    right. left. reflexivity.
Qed.

Lemma resolver_result_origin_witness :
  VStr (lit "https://cdn.example/v1") = VNone
  ∨ VStr (lit "https://cdn.example/v1")
    = default VNone (info_fallback !! lit "url")
  ∨ ∃ f, VDict f ∈ [fmt_entry "none" (Some "https://cdn.example/a1");
                    fmt_entry "none" (Some "https://cdn.example/a2");
                    fmt_entry "h264" (Some "https://cdn.example/v1");
                    fmt_entry "vp9" (Some "https://cdn.example/v2")]
         ∧ VStr (lit "https://cdn.example/v1")
           = default VNone (f !! lit "url").
Proof.
  exact (resolver_result_origin
           (λ _, Returns (VDict info_fallback)) watch_url info_fallback
           _ (VStr (lit "https://cdn.example/v1"))
           eq_refl eq_refl eq_refl).
Defined.

Lemma filter_extract_lookups (t : list event) :
  forallb lookup_event t = true → List.filter is_extract t = [].
Proof.
  induction t as [|e t IH]; [reflexivity|].
  cbn [forallb]. intros [He Ht]%andb_true_iff.
  cbn [List.filter]. destruct e; try discriminate; cbn; auto.
Qed.

(** X9.  One call of the resolver asks the library exactly once, for the
    URL it was given, whatever the library answers. *)
Theorem library_asked_once (ydl : pystr → extraction) (yt_url : pystr) :
  List.filter is_extract (trace (get_video_stream_url ydl yt_url))
  = [EvExtractInfo yt_url].
Proof.
  destruct (resolver_events ydl yt_url) as (t & -> & Ht).
  cbn [List.filter is_extract]. rewrite (filter_extract_lookups t Ht).
  reflexivity.
Qed.

(** ** Padding and letter case of typed lines *)

Lemma forallb_reverse {A} (f : A → bool) (l : list A) :
  forallb f (reverse l) = forallb f l.
Proof.
  induction l as [|x l IH]; [reflexivity|].
  rewrite reverse_cons, forallb_app, IH. cbn. rewrite andb_true_r.
  apply andb_comm.
Qed.

Lemma lstrip_app_blank (ws s : pystr) :
  forallb isspace ws = true → lstrip (ws ++ s) = lstrip s.
Proof.
  induction ws as [|c ws IH]; [reflexivity|].
  cbn [forallb app lstrip]. intros [Hc Hws]%andb_true_iff.
  rewrite Hc. auto.
Qed.

Lemma lstrip_app_nonblank (s r : pystr) :
  lstrip s ≠ [] → lstrip (s ++ r) = lstrip s ++ r.
Proof.
  induction s as [|c s IH]; [contradiction|].
  cbn [app lstrip]. destruct (isspace c); [exact IH|reflexivity].
Qed.

Lemma rstrip_app_blank (s ws : pystr) :
  forallb isspace ws = true → rstrip (s ++ ws) = rstrip s.
Proof.
  intros H. unfold rstrip. rewrite reverse_app, lstrip_app_blank; [reflexivity|].
  rewrite forallb_reverse. exact H.
Qed.

(** Whitespace around a line does not change what [strip] leaves. *)
Lemma strip_padding (ws1 s ws2 : pystr) :
  forallb isspace ws1 = true →
  forallb isspace ws2 = true →
  strip (ws1 ++ s ++ ws2) = strip s.
Proof.
  intros H1 H2. unfold strip. rewrite (lstrip_app_blank ws1 _ H1).
  destruct (lstrip_cases s) as [[Hl Hs]|(c & t & Hl & Hc)].
  - rewrite Hl. rewrite lstrip_blank; [reflexivity|].
    rewrite forallb_app, Hs, H2. reflexivity.
  - rewrite lstrip_app_nonblank by (rewrite Hl; discriminate).
    apply rstrip_app_blank, H2.
Qed.

Lemma lstrip_keeps (P : N → bool) (s : pystr) :
  forallb P s = true → forallb P (lstrip s) = true.
Proof.
  induction s as [|c s IH]; [reflexivity|].
  cbn [forallb lstrip]. intros H. pose proof H as [Hc Hs]%andb_true_iff.
  destruct (isspace c); [auto|exact H].
Qed.

Lemma strip_keeps (P : N → bool) (s : pystr) :
  forallb P s = true → forallb P (strip s) = true.
Proof.
  intros H. unfold strip, rstrip. rewrite forallb_reverse.
  apply lstrip_keeps. rewrite forallb_reverse. apply lstrip_keeps, H.
Qed.

Lemma ascii_lower_singleton (s : pystr) (c : N) :
  (97 <= c)%N → (c <= 122)%N →
  ascii_lower <$> s = [c] ↔ s = [c] ∨ s = [(c - 32)%N].
Proof.
  intros Hlo Hhi. destruct s as [|x [|y s]]; cbn [fmap list_fmap].
  - split; [discriminate|intros [|]; discriminate].
  - unfold ascii_lower.
    destruct (65 <=? x)%N eqn:H1; destruct (x <=? 90)%N eqn:H2; cbn [andb];
      try apply N.leb_le in H1; try apply N.leb_le in H2;
      try apply N.leb_gt in H1; try apply N.leb_gt in H2;
      (split; [intros [= H]; first [left; f_equal; lia | right; f_equal; lia]
              |intros [[= H]|[= H]]; f_equal; lia]).
  - split; [discriminate|intros [|]; discriminate].
Qed.

(** X10.  An ASCII line is the stop command exactly when, stripped of
    surrounding whitespace, it is [q] or [Q], and the pause command
    exactly when it is [p] or [P]; nothing else is a command. *)
Theorem command_recognition (unicode_lower : pystr → pystr) (line : pystr) :
  forallb is_ascii line = true →
  (is_q unicode_lower line = true
   ↔ strip line = lit "q" ∨ strip line = lit "Q")
  ∧ (is_p unicode_lower line = true
     ↔ strip line = lit "p" ∨ strip line = lit "P").
Proof.
  intros Ha%(strip_keeps is_ascii). unfold is_q, is_p, lower. rewrite Ha.
  rewrite !bool_decide_eq_true. split.
  - apply (ascii_lower_singleton (strip line) 113); lia.
  - apply (ascii_lower_singleton (strip line) 112); lia.
Qed.

Lemma command_recognition_witness :
  (is_q id (lit "  Q ") = true
   ↔ strip (lit "  Q ") = lit "q" ∨ strip (lit "  Q ") = lit "Q")
  ∧ (is_p id (lit "  Q ") = true
     ↔ strip (lit "  Q ") = lit "p" ∨ strip (lit "  Q ") = lit "P").
Proof. apply (command_recognition id (lit "  Q ")). reflexivity. Defined.

(** X11.  Whitespace typed around a line changes nothing: the listener
    runs on the padded line as on the bare one. *)
Theorem padding_is_ignored (unicode_lower : pystr → pystr)
    (ws1 line ws2 : pystr) (rest : list pystr) :
  forallb isspace ws1 = true →
  forallb isspace ws2 = true →
  line_loop unicode_lower ((ws1 ++ line ++ ws2) :: rest)
  = line_loop unicode_lower (line :: rest).
Proof.
  intros H1 H2. cbn [line_loop]. rewrite (strip_padding ws1 line ws2 H1 H2).
  reflexivity.
Qed.

Lemma padding_is_ignored_witness :
  line_loop id [lit "  " ++ lit "p" ++ lit " "; lit "q"]
  = line_loop id [lit "p"; lit "q"].
Proof.
  apply (padding_is_ignored id (lit "  ") (lit "p") (lit " ") [lit "q"]);
    reflexivity.
Defined.

(** ** The two loops of the listener *)

Lemma commands_app (t1 t2 : list event) :
  commands (t1 ++ t2) = commands t1 ++ commands t2.
Proof. apply List.filter_app. Qed.

Lemma commands_cons (e : event) (t : list event) :
  commands (e :: t) = if is_command e then e :: commands t else commands t.
Proof. reflexivity. Qed.

Lemma slept_app (t1 t2 : list event) :
  slept (t1 ++ t2) = (slept t1 + slept t2)%N.
Proof.
  induction t1 as [|e t1 IH]; [reflexivity|].
  destruct e; cbn [app slept]; rewrite IH; try reflexivity. lia.
Qed.

Lemma line_loop_cases (unicode_lower : pystr → pystr)
    (line : pystr) (lines : list pystr) :
  line_loop unicode_lower (line :: lines)
  = if is_q unicode_lower line
    then ([EvInput "Command: ";
           EvPrint "Stop command received from input. Stopping playback...";
           EvStop], Done tt)
    else if is_p unicode_lower line
    then ([EvInput "Command: ";
           EvPrint "Pause/resume command received from input. Toggling pause/resume...";
           EvPause] ++ trace (line_loop unicode_lower lines),
          result (line_loop unicode_lower lines))
    else ([EvInput "Command: ";
           EvPrint "Invalid command. Please enter 'q' or 'p'."]
            ++ trace (line_loop unicode_lower lines),
          result (line_loop unicode_lower lines)).
Proof. exact (line_loop_step unicode_lower line lines). Qed.

(** Lines before the first [q]: what they leave does not depend on what
    is typed after them. *)
Lemma line_loop_prefix (unicode_lower : pystr → pystr) (pre : list pystr) :
  forallb (λ l, negb (is_q unicode_lower l)) pre = true →
  ∃ t, (∀ rest, line_loop unicode_lower (pre ++ rest)
                = (t ++ trace (line_loop unicode_lower rest),
                   result (line_loop unicode_lower rest)))
       ∧ commands t
         = replicate (length (List.filter (is_p unicode_lower) pre)) EvPause
       ∧ length (List.filter is_input t) = length pre.
Proof.
  induction pre as [|x pre IH]; intros H.
  - exists []. split; [intros rest; apply run_eta|split; reflexivity].
  - cbn [forallb] in H. apply andb_true_iff in H as [Hx Hpre].
    apply negb_true_iff in Hx.
    destruct (IH Hpre) as (t & Hrun & Hcmd & Hin).
    destruct (is_p unicode_lower x) eqn:Hp.
    + exists ([EvInput "Command: ";
               EvPrint "Pause/resume command received from input. Toggling pause/resume...";
               EvPause] ++ t).
      split; [|split].
      * intros rest. cbn [app]. rewrite line_loop_cases, Hx, Hp, Hrun.
        reflexivity.
      * rewrite commands_app, Hcmd. cbn [List.filter]. rewrite Hp.
        reflexivity.
      * cbn. rewrite Hin. reflexivity.
    + exists ([EvInput "Command: ";
               EvPrint "Invalid command. Please enter 'q' or 'p'."] ++ t).
      split; [|split].
      * intros rest. cbn [app]. rewrite line_loop_cases, Hx, Hp, Hrun.
        reflexivity.
      * rewrite commands_app, Hcmd. cbn [List.filter]. rewrite Hp.
        reflexivity.
      * cbn. rewrite Hin. reflexivity.
Qed.

(** X12.  In line-input mode the first [q] ends the listener: it has
    issued one pause for each [p] typed before and then one stop, it has
    prompted once per line read, and the lines after the [q] are never
    read. *)
Theorem line_mode_stops_at_first_q (unicode_lower : pystr → pystr)
    (pre : list pystr) (l : pystr) (post : list pystr) :
  forallb (λ l, negb (is_q unicode_lower l)) pre = true →
  is_q unicode_lower l = true →
  let run := line_loop unicode_lower (pre ++ l :: post) in
  run = line_loop unicode_lower (pre ++ [l])
  ∧ result run = Done tt
  ∧ commands (trace run)
    = replicate (length (List.filter (is_p unicode_lower) pre)) EvPause
        ++ [EvStop]
  ∧ length (List.filter is_input (trace run)) = S (length pre).
Proof.
  intros Hpre Hl run. subst run.
  destruct (line_loop_prefix unicode_lower pre Hpre) as (t & Hrun & Hcmd & Hin).
  rewrite !Hrun, !line_loop_cases, Hl. cbn [trace result fst snd].
  split; [reflexivity|]. split; [reflexivity|]. split.
  - rewrite commands_app, Hcmd. reflexivity.
  - rewrite List.filter_app, length_app, Hin. cbn. lia.
Qed.

Lemma line_mode_stops_at_first_q_witness :
  let run := line_loop id ([lit "p"; lit "x"; lit "P"] ++ lit " q" :: [lit "p"]) in
  run = line_loop id ([lit "p"; lit "x"; lit "P"] ++ [lit " q"])
  ∧ result run = Done tt
  ∧ commands (trace run) = replicate 2 EvPause ++ [EvStop]
  ∧ length (List.filter is_input (trace run)) = 4%nat.
Proof.
  exact (line_mode_stops_at_first_q id [lit "p"; lit "x"; lit "P"]
           (lit " q") [lit "p"] eq_refl eq_refl).
Defined.

(** X13.  As long as no [q] is typed the listener goes on: it has issued
    one pause per [p] and nothing else, whatever the other lines were,
    and it sits at a new prompt. *)
Theorem line_mode_without_q_waits (unicode_lower : pystr → pystr)
    (lines : list pystr) :
  forallb (λ l, negb (is_q unicode_lower l)) lines = true →
  let run := line_loop unicode_lower lines in
  result run = Blocked
  ∧ commands (trace run)
    = replicate (length (List.filter (is_p unicode_lower) lines)) EvPause
  ∧ length (List.filter is_input (trace run)) = S (length lines).
Proof.
  intros H run. subst run.
  destruct (line_loop_prefix unicode_lower lines H) as (t & Hrun & Hcmd & Hin).
  specialize (Hrun []). rewrite app_nil_r in Hrun. rewrite Hrun.
  cbn [trace result fst snd line_loop emit blocked bind app].
  split; [reflexivity|]. split.
  - rewrite commands_app, Hcmd. cbn. rewrite app_nil_r. reflexivity.
  - rewrite List.filter_app, length_app, Hin. cbn. lia.
Qed.

Lemma line_mode_without_q_waits_witness :
  let run := line_loop id [lit "p"; lit "stop"; lit ""; lit "P "] in
  result run = Blocked
  ∧ commands (trace run) = replicate 2 EvPause
  ∧ length (List.filter is_input (trace run)) = 5%nat.
Proof.
  exact (line_mode_without_q_waits id
           [lit "p"; lit "stop"; lit ""; lit "P "] eq_refl).
Defined.

Lemma hook_loop_cases (q p : bool) (polls : list (bool * bool)) :
  hook_loop ((q, p) :: polls)
  = if q
    then ([EvIsPressed "q";
           EvPrint "Detected 'q' key press. Stopping playback...";
           EvStop], Done tt)
    else ([EvIsPressed "q"; EvIsPressed "p"]
            ++ (if p
                then [EvPrint "Detected 'p' key press. Toggling pause/resume...";
                      EvPause; EvSleep 400]
                else [])
            ++ EvSleep 100 :: trace (hook_loop polls),
          result (hook_loop polls)).
Proof.
  cbn [hook_loop]. destruct q; [reflexivity|].
  destruct p; destruct (hook_loop polls) as [t [[]| |]]; reflexivity.
Qed.

(** Passes before the first that sees [q] down. *)
Lemma hook_loop_prefix (pre : list (bool * bool)) :
  forallb (λ x, negb x.1) pre = true →
  ∃ t, (∀ rest, hook_loop (pre ++ rest)
                = (t ++ trace (hook_loop rest), result (hook_loop rest)))
       ∧ commands t = replicate (p_down pre) EvPause
       ∧ slept t
         = (100 * N.of_nat (length pre) + 400 * N.of_nat (p_down pre))%N.
Proof.
  induction pre as [|[q p] pre IH]; intros H.
  - exists []. split; [intros rest; apply run_eta|split; reflexivity].
  - cbn [forallb fst] in H. apply andb_true_iff in H as [Hq Hpre].
    apply negb_true_iff in Hq. subst q.
    destruct (IH Hpre) as (t & Hrun & Hcmd & Hs).
    exists ([EvIsPressed "q"; EvIsPressed "p"]
              ++ (if p
                  then [EvPrint "Detected 'p' key press. Toggling pause/resume...";
                        EvPause; EvSleep 400]
                  else [])
              ++ EvSleep 100 :: t).
    split; [|split].
    + intros rest. cbn [app]. rewrite hook_loop_cases, Hrun.
      cbn [trace result fst snd]. destruct p; reflexivity.
    + destruct p; cbn [app]; rewrite !commands_cons, Hcmd; reflexivity.
    + unfold p_down in *. destruct p; cbn [app slept List.filter snd length];
        rewrite Hs; lia.
Qed.

(** X14.  In hook mode the first pass that sees [q] down ends the
    listener, whether or not [p] is down too: [q] is asked first.  By
    then the listener has issued one pause for each earlier pass that
    saw [p] down, and it then issues the stop; later passes do not
    exist. *)
Theorem hook_mode_stops_at_first_q (pre : list (bool * bool)) (p : bool)
    (post : list (bool * bool)) :
  forallb (λ x, negb x.1) pre = true →
  let run := hook_loop (pre ++ (true, p) :: post) in
  run = hook_loop (pre ++ [(true, false)])
  ∧ result run = Done tt
  ∧ commands (trace run) = replicate (p_down pre) EvPause ++ [EvStop].
Proof.
  intros Hpre run. subst run.
  destruct (hook_loop_prefix pre Hpre) as (t & Hrun & Hcmd & _).
  rewrite !Hrun, !hook_loop_cases. cbn [trace result fst snd].
  split; [reflexivity|]. split; [reflexivity|].
  rewrite commands_app, Hcmd. reflexivity.
Qed.

Lemma hook_mode_stops_at_first_q_witness :
  let run := hook_loop ([(false, true); (false, false); (false, true)]
                          ++ (true, true) :: [(false, true)]) in
  run = hook_loop ([(false, true); (false, false); (false, true)]
                     ++ [(true, false)])
  ∧ result run = Done tt
  ∧ commands (trace run) = replicate 2 EvPause ++ [EvStop].
Proof.
  exact (hook_mode_stops_at_first_q
           [(false, true); (false, false); (false, true)] true
           [(false, true)] eq_refl).
Defined.

(** X15.  While [q] is never seen down the hook loop keeps polling.  It
    issues one pause in every pass that sees [p] down, so a key held
    over several passes toggles several times; and it sleeps 100 ms per
    pass plus 400 ms per pause. *)
Theorem hook_mode_without_q (polls : list (bool * bool)) :
  forallb (λ x, negb x.1) polls = true →
  let run := hook_loop polls in
  result run = Blocked
  ∧ commands (trace run) = replicate (p_down polls) EvPause
  ∧ slept (trace run)
    = (100 * N.of_nat (length polls) + 400 * N.of_nat (p_down polls))%N.
Proof.
  intros H run. subst run.
  destruct (hook_loop_prefix polls H) as (t & Hrun & Hcmd & Hs).
  specialize (Hrun []). rewrite app_nil_r in Hrun. rewrite Hrun.
  cbn [trace result fst snd hook_loop blocked].
  rewrite app_nil_r. auto.
Qed.

Lemma hook_mode_without_q_witness :
  let run := hook_loop [(false, true); (false, true); (false, false)] in
  result run = Blocked
  ∧ commands (trace run) = replicate 2 EvPause
  ∧ slept (trace run) = 1100%N.
Proof.
  exact (hook_mode_without_q
           [(false, true); (false, true); (false, false)] eq_refl).
Defined.

(** X16.  The two modes do not mix: with the keyboard module the
    listener never reads a line from standard input, and without it the
    listener never asks for the state of a key. *)
Theorem modes_are_exclusive (unicode_lower : pystr → pystr)
    (polls : list (bool * bool)) (lines : list pystr) :
  forallb (λ e, negb (is_input e))
    (trace (listen_for_controls unicode_lower true polls lines)) = true
  ∧ forallb (λ e, negb (is_key_query e))
      (trace (listen_for_controls unicode_lower false polls lines)) = true.
Proof.
  unfold listen_for_controls, print, emit.
  rewrite !(bind_done (A:=unit)). cbn [trace fst app forallb is_input
    is_key_query negb andb].
  split.
  - induction polls as [|[q p] polls IH]; [reflexivity|].
    rewrite hook_loop_cases. destruct q; [reflexivity|].
    destruct p; cbn; exact IH.
  - induction lines as [|l lines IH]; [reflexivity|].
    rewrite line_loop_cases.
    destruct (is_q unicode_lower l); [reflexivity|].
    destruct (is_p unicode_lower l); cbn; exact IH.
Qed.

(** ** The runs of [main] *)

Lemma wait_loop_events (passes : list wait_obs) :
  forallb waiting_event (trace (wait_loop passes)) = true.
Proof.
  induction passes as [|[s|] passes IH]; try reflexivity.
  cbn [wait_loop]. destruct (bool_decide _); [reflexivity|].
  unfold emit, sleep, emit. rewrite !(bind_done (A:=unit)).
  cbn [trace fst app forallb waiting_event andb]. exact IH.
Qed.

(** The wait phase starts the listener once, at a fixed place, and then
    only polls, sleeps and prints. *)
Lemma wait_phase_events (w : world) :
  ∃ t, trace (wait_phase w)
       = [EvSleep 1000; EvGetState;
          EvPrintState "Initial VLC player state:" (initial_state w);
          EvStartListener] ++ t
       ∧ forallb waiting_event t = true.
Proof.
  unfold wait_phase, sleep, print, emit.
  rewrite !(bind_done (A:=unit)). cbn [trace fst app].
  eexists. split; [reflexivity|].
  pose proof (wait_loop_events (wait_passes w)) as H.
  destruct (wait_loop (wait_passes w)) as [t [[]|[c| |e]|]];
    cbn [trace fst] in H; cbn; rewrite ?forallb_app, ?H; reflexivity.
Qed.

Section MainCases.

Variable w : world.

Local Abbreviation yt_url := (strip (typed_url w)).
Local Abbreviation resolution := (get_video_stream_url (ydl_of w) yt_url).

Lemma main_construction_fails (v : pyval) (e : error) :
  yt_url ≠ [] →
  result resolution = Done v →
  truthy v = true →
  media_player w v = Some e →
  main w
  = (EvInput "Enter YouTube URL: " :: trace resolution
       ++ [EvPrint "Starting video playback..."; EvMediaPlayer v;
           EvPrintError "Error initializing VLC MediaPlayer:" e],
     Raised (SystemExit 1)).
Proof.
  intros Hne Hv Ht He.
  rewrite (main_resolved w v Hne Hv Ht), (start_construction_fails w v e He).
  reflexivity.
Qed.

Lemma main_play_fails (v : pyval) :
  yt_url ≠ [] →
  result resolution = Done v →
  truthy v = true →
  media_player w v = None →
  play_returns w = -1 →
  main w
  = (EvInput "Enter YouTube URL: " :: trace resolution
       ++ [EvPrint "Starting video playback..."; EvMediaPlayer v; EvPlay;
           EvPrint "VLC failed to start playback. Check your VLC installation."],
     Raised (SystemExit 1)).
Proof.
  intros Hne Hv Ht Hc Hp.
  rewrite (main_resolved w v Hne Hv Ht), (start_play_fails w v Hc Hp).
  reflexivity.
Qed.

(** The five ways a run of [main] can go. *)
Lemma main_cases :
  (yt_url = []
   ∧ main w = ([EvInput "Enter YouTube URL: "; EvPrint "Invalid URL. Exiting."],
               Raised (SystemExit 1)))
  ∨ ∃ v, yt_url ≠ [] ∧ result resolution = Done v ∧
    ((truthy v = false
      ∧ main w
        = (EvInput "Enter YouTube URL: " :: trace resolution
             ++ [EvPrint "Could not retrieve a valid video stream URL from the provided link."],
           Raised (SystemExit 1)))
     ∨ (truthy v = true ∧
        ((∃ e, media_player w v = Some e
               ∧ main w
                 = (EvInput "Enter YouTube URL: " :: trace resolution
                      ++ [EvPrint "Starting video playback..."; EvMediaPlayer v;
                          EvPrintError "Error initializing VLC MediaPlayer:" e],
                    Raised (SystemExit 1)))
         ∨ (media_player w v = None ∧ play_returns w = -1
            ∧ main w
              = (EvInput "Enter YouTube URL: " :: trace resolution
                   ++ [EvPrint "Starting video playback..."; EvMediaPlayer v;
                       EvPlay;
                       EvPrint "VLC failed to start playback. Check your VLC installation."],
                 Raised (SystemExit 1)))
         ∨ (media_player w v = None ∧ play_returns w ≠ -1
            ∧ main w
              = ((EvInput "Enter YouTube URL: " :: trace resolution
                    ++ [EvPrint "Starting video playback..."; EvMediaPlayer v])
                   ++ EvPlay :: trace (wait_phase w),
                 result (wait_phase w)))))).
Proof.
  destruct (decide (yt_url = [])) as [Hb|Hne].
  { left. split; [exact Hb|exact (main_blank w Hb)]. }
  right.
  destruct (get_video_stream_url_returns (ydl_of w) yt_url) as [v Hv].
  exists v. split; [exact Hne|]. split; [exact Hv|].
  destruct (truthy v) eqn:Ht.
  2:{ left. split; [reflexivity|]. exact (main_unresolved w v Hne Hv Ht). }
  right. split; [reflexivity|].
  destruct (media_player w v) as [e|] eqn:Hc.
  { left. exists e. split; [reflexivity|].
    exact (main_construction_fails v e Hne Hv Ht Hc). }
  right.
  destruct (decide (play_returns w = -1)) as [Hp|Hp].
  - left. split; [reflexivity|]. split; [exact Hp|].
    exact (main_play_fails v Hne Hv Ht Hc Hp).
  - right. split; [reflexivity|]. split; [exact Hp|].
    exact (main_reaches_wait_phase w v Hne Hv Ht Hc Hp).
Qed.

End MainCases.

Lemma forallb_elem_of (P : event → bool) (t : list event) (e : event) :
  forallb P t = true → e ∈ t → P e = true.
Proof.
  intros H Hin. apply list_elem_of_In in Hin.
  exact (proj1 (forallb_forall P t) H e Hin).
Qed.

Lemma resolver_trace_events (ydl : pystr → extraction) (yt_url : pystr) :
  forallb resolver_event (trace (get_video_stream_url ydl yt_url)) = true.
Proof.
  destruct (resolver_events ydl yt_url) as (t & -> & Ht).
  cbn [forallb resolver_event andb].
  induction t as [|e t IH]; [reflexivity|].
  cbn [forallb] in *. apply andb_true_iff in Ht as [He Ht].
  rewrite (IH Ht). destruct e; try discriminate; reflexivity.
Qed.

Lemma wait_phase_completes (w : world) (pre : list State) (s : State)
    (post : list wait_obs) :
  wait_passes w = (Reports <$> pre) ++ Reports s :: post →
  forallb still_playing pre = true →
  still_playing s = false →
  wait_phase w
  = ([EvSleep 1000; EvGetState;
      EvPrintState "Initial VLC player state:" (initial_state w);
      EvStartListener]
       ++ polling (length pre)
       ++ [EvGetState; EvPrint "Video playback ended."],
     Done tt).
Proof.
  intros Hw Hpre Hs. unfold wait_phase.
  rewrite Hw, (wait_loop_exits pre s post Hpre Hs).
  cbn. rewrite <- List.app_assoc. reflexivity.
Qed.

Lemma wait_phase_pending (w : world) (pre : list State) :
  wait_passes w = Reports <$> pre →
  forallb still_playing pre = true →
  wait_phase w
  = ([EvSleep 1000; EvGetState;
      EvPrintState "Initial VLC player state:" (initial_state w);
      EvStartListener]
       ++ polling (length pre),
     Blocked).
Proof.
  intros Hw Hpre. unfold wait_phase.
  rewrite Hw, (wait_loop_keeps_polling pre Hpre). reflexivity.
Qed.

(** X17.  When the engine reports [Ended] or [Error] the run ends at
    that very pass with the completion message and status 0.  An engine
    error during playback is therefore not a failure of the program: it
    gets no diagnostic and the same status as a video played to its
    end. *)
Theorem playback_end_exits_zero (w : world) (v : pyval)
    (pre : list State) (s : State) (post : list wait_obs) :
  strip (typed_url w) ≠ [] →
  result (get_video_stream_url (ydl_of w) (strip (typed_url w))) = Done v →
  truthy v = true →
  media_player w v = None →
  play_returns w ≠ -1 →
  wait_passes w = (Reports <$> pre) ++ Reports s :: post →
  forallb still_playing pre = true →
  s = Ended ∨ s = Error →
  process_end_of (result (main w)) = ExitStatus 0
  ∧ ∃ t, trace (main w)
         = t ++ EvStartListener :: polling (length pre)
             ++ [EvGetState; EvPrint "Video playback ended."].
Proof.
  intros Hne Hv Ht Hc Hp Hw Hpre Hs.
  assert (Hs' : still_playing s = false) by (destruct Hs; subst; reflexivity).
  rewrite (main_reaches_wait_phase w v Hne Hv Ht Hc Hp).
  rewrite (wait_phase_completes w pre s post Hw Hpre Hs').
  cbn [trace result fst snd process_end_of].
  split; [reflexivity|].
  exists ((EvInput "Enter YouTube URL: "
             :: trace (get_video_stream_url (ydl_of w) (strip (typed_url w)))
             ++ [EvPrint "Starting video playback..."; EvMediaPlayer v])
          ++ [EvPlay; EvSleep 1000; EvGetState;
              EvPrintState "Initial VLC player state:" (initial_state w)]).
  rewrite <- (List.app_assoc _ [_; _; _; _]). reflexivity.
Qed.

Lemma playback_end_exits_zero_witness :
  let w := playing_world None 0 [Reports Playing; Reports Error; Interrupt] in
  process_end_of (result (main w)) = ExitStatus 0
  ∧ ∃ t, trace (main w)
         = t ++ EvStartListener :: polling 1
             ++ [EvGetState; EvPrint "Video playback ended."].
Proof.
  intros w.
  destruct (playing_world_resolves None 0
              [Reports Playing; Reports Error; Interrupt])
    as (Hne & Hv & Ht).
  exact (playback_end_exits_zero w direct_url [Playing] Error [Interrupt]
           Hne Hv Ht eq_refl ltac:(discriminate) eq_refl eq_refl
           (or_intror eq_refl)).
Defined.

(** X18.  As long as the engine reports neither [Ended] nor [Error] and
    no interrupt arrives, [main] does not end: a player that stays
    paused, idle or playing keeps the program alive, polling once a
    second. *)
Theorem main_keeps_waiting (w : world) (v : pyval) (pre : list State) :
  strip (typed_url w) ≠ [] →
  result (get_video_stream_url (ydl_of w) (strip (typed_url w))) = Done v →
  truthy v = true →
  media_player w v = None →
  play_returns w ≠ -1 →
  wait_passes w = Reports <$> pre →
  forallb still_playing pre = true →
  process_end_of (result (main w)) = StillRunning
  ∧ ∃ t, trace (main w) = t ++ EvStartListener :: polling (length pre).
Proof.
  intros Hne Hv Ht Hc Hp Hw Hpre.
  rewrite (main_reaches_wait_phase w v Hne Hv Ht Hc Hp).
  rewrite (wait_phase_pending w pre Hw Hpre).
  cbn [trace result fst snd process_end_of].
  split; [reflexivity|].
  exists ((EvInput "Enter YouTube URL: "
             :: trace (get_video_stream_url (ydl_of w) (strip (typed_url w)))
             ++ [EvPrint "Starting video playback..."; EvMediaPlayer v])
          ++ [EvPlay; EvSleep 1000; EvGetState;
              EvPrintState "Initial VLC player state:" (initial_state w)]).
  rewrite <- (List.app_assoc _ [_; _; _; _]). reflexivity.
Qed.

Lemma main_keeps_waiting_witness :
  let w := playing_world None 0 [Reports Playing; Reports Paused; Reports Idle] in
  process_end_of (result (main w)) = StillRunning
  ∧ ∃ t, trace (main w) = t ++ EvStartListener :: polling 3.
Proof.
  intros w.
  destruct (playing_world_resolves None 0
              [Reports Playing; Reports Paused; Reports Idle])
    as (Hne & Hv & Ht).
  exact (main_keeps_waiting w direct_url [Playing; Paused; Idle]
           Hne Hv Ht eq_refl ltac:(discriminate) eq_refl eq_refl).
Defined.

(** X19.  [main] returns normally, that is with status 0, only at the
    end of a run that started playback and the listener, and its last
    act is then the completion message. *)
Theorem normal_return_means_playback (w : world) :
  result (main w) = Done tt →
  EvPlay ∈ trace (main w)
  ∧ EvStartListener ∈ trace (main w)
  ∧ ∃ t, trace (main w) = t ++ [EvPrint "Video playback ended."].
Proof.
  intros Hdone.
  destruct (main_cases w)
    as [[_ Hm]|(v & _ & _ & [[_ Hm]|[_ [(e & _ & Hm)|[(_ & _ & Hm)|(_ & _ & Hm)]]]])];
    rewrite Hm in Hdone; try discriminate.
  rewrite Hm. cbn [trace result fst snd] in *.
  destruct (wait_phase_events w) as (t0 & Ht0 & _).
  split; [apply elem_of_app; right; left|].
  split; [rewrite Ht0; apply elem_of_app; right; right; right; right; right; left|].
  assert (Hend : ∃ t, trace (wait_phase w) = t ++ [EvPrint "Video playback ended."]).
  { revert Hdone. clear. unfold wait_phase, sleep, print, emit.
    rewrite !(bind_done (A:=unit)). cbn [trace result fst snd].
    destruct (try_except_KeyboardInterrupt _ _) as [t [[]|x|]];
      cbn [bind trace result fst snd]; try discriminate.
    intros _. eexists (_ :: _ :: _ :: _ :: t). reflexivity. }
  destruct Hend as [t ->].
  eexists (_ ++ EvPlay :: t). rewrite <- List.app_assoc. reflexivity.
Qed.

Lemma normal_return_means_playback_witness :
  let w := playing_world None 0 [Reports Playing; Reports Ended] in
  EvPlay ∈ trace (main w)
  ∧ EvStartListener ∈ trace (main w)
  ∧ ∃ t, trace (main w) = t ++ [EvPrint "Video playback ended."].
Proof.
  intros w. apply (normal_return_means_playback w).
  vm_compute. reflexivity.
Defined.

Ltac split_elem H :=
  repeat first [ apply elem_of_app in H as [H|H]
               | apply elem_of_cons in H as [H|H]
               | apply elem_of_nil in H; contradiction ].

Lemma not_resolver_event (ydl : pystr → extraction) (yt_url : pystr)
    (e : event) :
  resolver_event e = false → e ∉ trace (get_video_stream_url ydl yt_url).
Proof.
  intros He Hin.
  rewrite (forallb_elem_of _ _ e (resolver_trace_events ydl yt_url) Hin) in He.
  discriminate.
Qed.

Lemma wait_phase_has_no (w : world) (e : event) :
  waiting_event e = false →
  (∀ s, e ≠ EvPrintState "Initial VLC player state:" s) →
  e ≠ EvStartListener →
  e ∉ trace (wait_phase w).
Proof.
  intros He Hs Hl Hin. destruct (wait_phase_events w) as (t & Ht & Hev).
  rewrite Ht in Hin. split_elem Hin; subst; try discriminate.
  - exact (Hs _ eq_refl).
  - exact (Hl eq_refl).
  - rewrite (forallb_elem_of _ _ e Hev Hin) in He. discriminate.
Qed.

(** X20.  The player is only ever constructed from what the resolver
    returned, and only when that value is truthy: no run of [main] hands
    [None], an empty string or anything else to [vlc.MediaPlayer]. *)
Theorem player_gets_resolved_url (w : world) (v : pyval) :
  EvMediaPlayer v ∈ trace (main w) →
  strip (typed_url w) ≠ []
  ∧ result (get_video_stream_url (ydl_of w) (strip (typed_url w))) = Done v
  ∧ truthy v = true.
Proof.
  intros H.
  destruct (main_cases w)
    as [[_ Hm]|(v0 & Hne & Hv & [[_ Hm]|[Ht [(e & _ & Hm)|[(_ & _ & Hm)|(_ & _ & Hm)]]]])];
    rewrite Hm in H; cbn [trace fst] in H; split_elem H;
    try discriminate;
    try (exfalso; revert H; apply not_resolver_event; reflexivity);
    try (exfalso; revert H; apply wait_phase_has_no;
         [reflexivity|discriminate|discriminate]);
    injection H as ->; auto.
Qed.

Lemma player_gets_resolved_url_witness :
  let w := playing_world None 0 [Reports Ended] in
  strip (typed_url w) ≠ []
  ∧ result (get_video_stream_url (ydl_of w) (strip (typed_url w)))
    = Done direct_url
  ∧ truthy direct_url = true.
Proof.
  intros w. apply (player_gets_resolved_url w direct_url).
  apply list_elem_of_In. vm_compute.
  repeat first [left; reflexivity | right].
Defined.

(** X21.  The control listener is started in exactly those runs in which
    a truthy stream URL was resolved, the player was constructed and
    [play()] did not return [-1]: no failing start leaves a listener
    behind. *)
Theorem listener_started_iff (w : world) :
  EvStartListener ∈ trace (main w)
  ↔ ∃ v, strip (typed_url w) ≠ []
         ∧ result (get_video_stream_url (ydl_of w) (strip (typed_url w)))
           = Done v
         ∧ truthy v = true
         ∧ media_player w v = None
         ∧ play_returns w ≠ -1.
Proof.
  split.
  - intros H.
    destruct (main_cases w)
      as [[_ Hm]|(v0 & Hne & Hv & [[_ Hm]|[Ht [(e & _ & Hm)|[(_ & _ & Hm)|(Hc & Hp & Hm)]]]])];
      [rewrite Hm in H; cbn [trace fst] in H; split_elem H;
       try discriminate;
       exfalso; revert H; apply not_resolver_event; reflexivity ..|].
    exists v0. auto.
  - intros (v & Hne & Hv & Ht & Hc & Hp).
    rewrite (main_reaches_wait_phase w v Hne Hv Ht Hc Hp). cbn [trace fst].
    destruct (wait_phase_events w) as (t & -> & _).
    apply elem_of_app. right. right. right. right. right. left.
Qed.

(** X22.  For a line that is not blank, a run of [main] asks the
    extraction library exactly once, and for the line stripped of its
    surrounding whitespace. *)
Theorem url_asked_once_stripped (w : world) :
  forallb isspace (typed_url w) = false →
  List.filter is_extract (trace (main w))
  = [EvExtractInfo (strip (typed_url w))].
Proof.
  intros Hb.
  assert (Hw : List.filter is_extract (trace (wait_phase w)) = []).
  { destruct (wait_phase_events w) as (t & -> & Ht).
    cbn [app List.filter is_extract].
    induction t as [|e t IH]; [reflexivity|].
    cbn [forallb] in Ht. apply andb_true_iff in Ht as [He Ht].
    cbn [List.filter]. destruct e; try discriminate; cbn; auto. }
  destruct (resolver_events (ydl_of w) (strip (typed_url w)))
    as (t & Htr & Ht).
  pose proof (filter_extract_lookups t Ht) as Hf.
  destruct (main_cases w)
    as [[Hs _]|(v0 & Hne & Hv & [[_ Hm]|[_ [(e & _ & Hm)|[(_ & _ & Hm)|(_ & _ & Hm)]]]])].
  { apply strip_nil_iff in Hs. congruence. }
  all: rewrite Hm, Htr; cbn [trace fst app List.filter is_extract];
    rewrite ?List.filter_app, Hf; cbn [app List.filter is_extract];
    rewrite ?Hw; reflexivity.
Qed.

Lemma url_asked_once_stripped_witness :
  List.filter is_extract
    (trace (main (playing_world None 0 [Reports Ended])))
  = [EvExtractInfo (lit "https://youtu.be/abc")].
Proof.
  exact (url_asked_once_stripped (playing_world None 0 [Reports Ended])
           eq_refl).
Defined.

(** ** The module level *)

(** X23.  When [vlc] or [yt_dlp] cannot be imported the script prints
    one line, naming the first missing module in import order, and exits
    with status 1 before [main] starts: no prompt is shown. *)
Theorem required_module_missing (m : modules) (w : world) :
  vlc m = NotInstalled ∨ yt_dlp m = NotInstalled →
  script m w
  = ([EvPrint (match vlc m with
               | NotInstalled =>
                   "The python-vlc module is not installed. Please install it with: pip install python-vlc"
               | Imported =>
                   "The yt-dlp module is not installed. Please install it with: pip install yt-dlp"
               end)],
     Raised (SystemExit 1)).
Proof.
  unfold script, module_init.
  destruct (vlc m); [|reflexivity].
  intros [H|H]; [discriminate|]. rewrite H. reflexivity.
Qed.

Lemma required_module_missing_witness :
  script {| vlc := NotInstalled; yt_dlp := NotInstalled; keyboard := Imported |}
    blank_world
  = ([EvPrint "The python-vlc module is not installed. Please install it with: pip install python-vlc"],
     Raised (SystemExit 1)).
Proof.
  apply (required_module_missing
           {| vlc := NotInstalled; yt_dlp := NotInstalled; keyboard := Imported |}
           blank_world).
  left. reflexivity.
Defined.

(** X24.  The [keyboard] module is optional: with the two required
    modules present the script goes on to [main] either way, and a
    missing [keyboard] only adds two lines of output and selects
    line-input mode. *)
Theorem keyboard_is_optional (m : modules) (w : world) :
  vlc m = Imported →
  yt_dlp m = Imported →
  result (module_init m)
  = Done (match keyboard m with Imported => true | NotInstalled => false end)
  ∧ script m w
    = ((match keyboard m with
        | Imported => []
        | NotInstalled =>
            [EvPrint "The 'keyboard' module is not installed. For improved controls, install it with: pip install keyboard";
             EvPrint "Falling back to manual input commands."]
        end) ++ trace (main w),
       result (main w)).
Proof.
  intros Hv Hy. unfold script, module_init. rewrite Hv, Hy.
  destruct (keyboard m); (split; [reflexivity|]).
  - unfold ret. rewrite !(bind_done (A:=unit)).
    cbn [trace result fst snd app]. rewrite (bind_done (A:=bool)).
    reflexivity.
  - unfold ret, print, emit. rewrite !(bind_done (A:=unit)).
    cbn [trace result fst snd app]. rewrite (bind_done (A:=bool)).
    reflexivity.
Qed.

Lemma keyboard_is_optional_witness :
  let m := {| vlc := Imported; yt_dlp := Imported; keyboard := NotInstalled |} in
  result (module_init m) = Done false
  ∧ script m blank_world
    = ([EvPrint "The 'keyboard' module is not installed. For improved controls, install it with: pip install keyboard";
        EvPrint "Falling back to manual input commands."]
         ++ trace (main blank_world),
       result (main blank_world)).
Proof.
  exact (keyboard_is_optional
           {| vlc := Imported; yt_dlp := Imported; keyboard := NotInstalled |}
           blank_world eq_refl eq_refl).
Defined.

(** ** The stop command and the wait loop *)



